(** * The ncurses C++ binding: identity hooks, decoration guards, child
      collections, the soft-label-key stack and the dispatch loop.

    A shallow embedding of the binding headers [etip.h], [cursesp.h],
    [cursesm.h], [cursesf.h], [cursslk.h] and [cursesapp.h].

    Conventions of the embedding:
    - a C pointer is an address in [Z], the null pointer is [NULL = 0];
    - the [UserHook] records that the binding allocates live in a heap
      [gmap Z UserHook]; reading through a pointer that is neither null nor
      the address of a hook is undefined behaviour ([Undefined]);
    - what the handle-based C library currently reports is a record
      [curses.Library] of observations;
    - a call ends in an [outcome]: it returns, a C++ exception propagates,
      the process exits, an error handler of the toolchain takes over, an
      [assert] aborts ([assert] is taken as compiled in), or the behaviour is
      undefined. *)

From stdpp Require Import base tactics option list gmap strings.
From Stdlib Require Import ZArith Lia.

Open Scope Z_scope.

Abbreviation ptr := Z.
Abbreviation cstr := (option string).

Definition NULL : ptr := 0.

(** ** Library sentinels *)

(** The sentinels of <eti.h> and <curses.h>.  Those headers are not part of
    the binding; their values are taken as parameters. *)
Class EtiCodes : Type := {
  E_OK : Z;
  E_SYSTEM_ERROR : Z;
  E_BAD_ARGUMENT : Z;
  ERR : Z
}.

(** The values the ETI interface documents; used to exercise the
    definitions on concrete inputs. *)
Definition eti_codes : EtiCodes :=
  {| E_OK := 0; E_SYSTEM_ERROR := -1; E_BAD_ARGUMENT := -2; ERR := -1 |}.

(** ** etip.h: exceptions *)

(** The exception hierarchy.  The derived classes add the wrapper the error
    came from ([p], [m], [f]; null when it is not given). *)
Inductive NCursesException : Type :=
| NCursesException_ (msg : string) (err : Z)
| NCursesPanelException (p : ptr) (msg : string) (err : Z)
| NCursesMenuException (m : ptr) (msg : string) (err : Z)
| NCursesFormException (f : ptr) (msg : string) (err : Z).

Definition message (e : NCursesException) : string :=
  match e with
  | NCursesException_ msg _ | NCursesPanelException _ msg _
  | NCursesMenuException _ msg _ | NCursesFormException _ msg _ => msg
  end.

Definition errorno (e : NCursesException) : Z :=
  match e with
  | NCursesException_ _ err | NCursesPanelException _ _ err
  | NCursesMenuException _ _ err | NCursesFormException _ _ err => err
  end.

(** [virtual const char *classname() const] *)
Definition classname (e : NCursesException) : string :=
  match e with
  | NCursesException_ _ _ => "NCursesWindow"
  | NCursesPanelException _ _ _ => "NCursesPanel"
  | NCursesMenuException _ _ _ => "NCursesMenu"
  | NCursesFormException _ _ _ => "NCursesForm"
  end%string.

(** [explicit NCursesException (const char* msg)] *)
Definition NCursesException_msg `{EtiCodes} (msg : string) : NCursesException :=
  NCursesException_ msg E_SYSTEM_ERROR.

(** [explicit NCursesPanelException (int err)] and its siblings *)
Definition NCursesPanelException_err (p : ptr) (err : Z) : NCursesException :=
  NCursesPanelException p "panel library error" err.
Definition NCursesMenuException_err (m : ptr) (err : Z) : NCursesException :=
  NCursesMenuException m "menu library error" err.
Definition NCursesFormException_err (f : ptr) (err : Z) : NCursesException :=
  NCursesFormException f "form library error" err.

(** [throw *e] with [e : const NCursesException*]: the object thrown is
    copy-initialised from the static type of [*e], the base class. *)
Definition sliced (e : NCursesException) : NCursesException :=
  NCursesException_ (message e) (errorno e).

(** ** Outcomes *)

Inductive exit_status : Type := exit_0 | EXIT_FAILURE.

Inductive outcome (A : Type) : Type :=
| Ret (a : A)                       (* normal return *)
| Throw (e : NCursesException)      (* a C++ exception propagates *)
| Exit (st : exit_status)           (* exit() was called *)
| ErrorHandler (cls msg : string)   (* lib_error_handler / genericerror *)
| Abort                             (* a failed assert *)
| Undefined.                        (* undefined behaviour *)
Arguments Ret {A} a.
Arguments Throw {A} e.
Arguments Exit {A} st.
Arguments ErrorHandler {A} cls msg.
Arguments Abort {A}.
Arguments Undefined {A}.

Definition outcome_bind {A B} (f : A → outcome B) (x : outcome A) : outcome B :=
  match x with
  | Ret a => f a
  | Throw e => Throw e
  | Exit st => Exit st
  | ErrorHandler c m => ErrorHandler c m
  | Abort => Abort
  | Undefined => Undefined
  end.

#[global] Instance outcome_ret : MRet outcome := @Ret.
#[global] Instance outcome_mbind : MBind outcome := @outcome_bind.

(** The call came back to its caller. *)
Definition returns {A} (x : outcome A) : bool :=
  match x with Ret _ => true | _ => false end.

(** The error can be caught by the application. *)
Definition recoverable {A} (x : outcome A) : bool :=
  match x with Throw _ => true | _ => false end.

(** A fault: a failed assertion or undefined behaviour. *)
Definition faulted {A} (x : outcome A) : bool :=
  match x with Abort | Undefined => true | _ => false end.

(** ** etip.h: THROW *)

(** The predefined macros [THROW] looks at. *)
Record Toolchain : Type := {
  GNUG : option Z;               (* __GNUG__, when defined *)
  GNUC_MINOR : Z;                (* __GNUC_MINOR__ *)
  EXCEPTIONS : bool;             (* defined(__EXCEPTIONS) *)
  SUNPRO_CC : bool;              (* defined(__SUNPRO_CC) *)
  SUNPRO_CC_COMPAT : option Z    (* __SUNPRO_CC_COMPAT, when defined *)
}.

(** The branch of the conditional compilation in [THROW]. *)
Inductive throw_branch : Type :=
| lib_error_handler    (* g++ before 2.8 *)
| endwin_exit_failure  (* g++ 7 and later *)
| genericerror         (* Sun C++ before compatibility level 5 *)
| message_exit_0       (* neither g++ with exceptions nor Sun C++ *)
| try_catch.           (* #define CPP_HAS_TRY_CATCH 1 *)

Definition THROW_branch (tc : Toolchain) : throw_branch :=
  match GNUG tc, EXCEPTIONS tc with
  | Some g, true =>
      if (g <=? 2) && (GNUC_MINOR tc <? 8) then lib_error_handler
      else if g >=? 7 then endwin_exit_failure
      else try_catch
  | _, _ =>
      if SUNPRO_CC tc then
        match SUNPRO_CC_COMPAT tc with
        | None => genericerror
        | Some c => if c <? 5 then genericerror else try_catch
        end
      else message_exit_0
  end.

Definition CPP_HAS_TRY_CATCH (tc : Toolchain) : bool :=
  match THROW_branch tc with try_catch => true | _ => false end.

(** [inline void THROW(const NCursesException *e)].  The handlers of the two
    oldest toolchains do not come back in their default setting: they are
    recorded as the final outcome. *)
Definition THROW {A} (tc : Toolchain) (e : NCursesException) : outcome A :=
  match THROW_branch tc with
  | lib_error_handler => ErrorHandler (classname e) (message e)
  | endwin_exit_failure => Exit EXIT_FAILURE
  | genericerror => ErrorHandler "" (message e)
  | message_exit_0 => Exit exit_0
  | try_catch => Throw (sliced e)
  end.

(** Toolchains to run the definitions on. *)
Definition gxx (major minor : Z) : Toolchain :=
  {| GNUG := Some major; GNUC_MINOR := minor; EXCEPTIONS := true;
     SUNPRO_CC := false; SUNPRO_CC_COMPAT := None |}.
Definition gxx_no_exceptions (major minor : Z) : Toolchain :=
  {| GNUG := Some major; GNUC_MINOR := minor; EXCEPTIONS := false;
     SUNPRO_CC := false; SUNPRO_CC_COMPAT := None |}.

(** ** The user-data hook *)

(** [typedef struct { void* m_user; const NCursesX* m_back; const X* m_owner; }
    UserHook]: declared with the same shape by NCursesPanel, NCursesMenu and
    NCursesForm. *)
Record UserHook : Type := {
  m_user : ptr;     (* the pointer for the user's data *)
  m_back : ptr;     (* backward pointer to the C++ object *)
  m_owner : ptr     (* the handle itself *)
}.

(** [uptr->m_user = user] *)
Definition set_m_user (user : ptr) (hook : UserHook) : UserHook :=
  {| m_user := user; m_back := m_back hook; m_owner := m_owner hook |}.

(** Reading the hook a pointer refers to. *)
Definition deref (heap : gmap Z UserHook) (a : ptr) : outcome UserHook :=
  match heap !! a with
  | Some hook => Ret hook
  | None => Undefined
  end.

(** ** The C library, as the binding observes it *)

Module curses.
Record Library : Type := {
  panel_userptr : ptr → ptr;     (* the user-data slot of a PANEL *)
  menu_userptr : ptr → ptr;      (* the user-data slot of a MENU *)
  form_userptr : ptr → ptr;      (* the user-data slot of a FORM *)
  item_count : ptr → Z;
  field_count : ptr → Z;
  item_index : ptr → Z;
  field_index : ptr → Z;
  current_item : ptr → ptr;
  current_field : ptr → ptr
}.
End curses.


(** Modelled from the spec: the library's "set items/fields" entry points
    (the library is not among the sources), by their contract: the library
    answers with a sentinel and, when that is [E_OK], "the library-reported
    index of a child's handle equals its position in the collection". *)
Class Connect `{EtiCodes} : Type := {
  set_menu_items : curses.Library → ptr → list ptr → Z * curses.Library;
  set_form_fields : curses.Library → ptr → list ptr → Z * curses.Library;
  set_menu_items_index : ∀ lib m raw lib',
    set_menu_items lib m raw = (E_OK, lib') →
    ∀ (i : nat) h, raw !! i = Some h → curses.item_index lib' h = Z.of_nat i;
  set_form_fields_index : ∀ lib f raw lib',
    set_form_fields lib f raw = (E_OK, lib') →
    ∀ (i : nat) h, raw !! i = Some h → curses.field_index lib' h = Z.of_nat i
}.

(** ** The dispatch loop *)

(** Modelled from the spec: the outcomes of the library's driver entry
    point. *)
Inductive driver_result : Type :=
| driver_ok
| request_denied
| selection_invalid
| no_match
| unknown_command.

(** Modelled from the spec: the virtual members a run loop goes through
    ([virtualize], [driver], the four [On_...] handlers and the actions of
    the children are declared in cursesm.h and cursesf.h; their bodies are
    not among the sources).  [L] is the state of the library, the authority
    on the current selection; [action] is the action an iteration ends with,
    answering whether it requests to leave the loop. *)
Class Driver (L : Type) : Type := {
  observe : L → curses.Library;
  virtualize : Z → Z;
  driver : Z → L → driver_result * L;
  On_Request_Denied : Z → L → L;
  On_Selection_Invalid : Z → L → L;
  On_No_Match : Z → L → L;
  On_Unknown_Command : Z → L → L;
  action : Z → driver_result → L → bool * L
}.

(** Modelled from the spec: step 4 of an iteration, the result of the driver
    resolved against the four override points. *)
Definition resolve {L} `{Driver L} (c : Z) (res : driver_result) (l : L) : L :=
  match res with
  | driver_ok => l
  | request_denied => On_Request_Denied c l
  | selection_invalid => On_Selection_Invalid c l
  | no_match => On_No_Match c l
  | unknown_command => On_Unknown_Command c l
  end.

(** Modelled from the spec: steps 2 to 4 of one iteration on the keystroke
    [c], and whether the iteration signalled the exit action. *)
Definition iteration {L} `{Driver L} (c : Z) (l : L) : bool * L :=
  let drvCmnd := virtualize c in
  let '(res, l1) := driver drvCmnd l in
  action drvCmnd res (resolve c res l1).

(** Modelled from the spec: the run loop on a scripted input [keys].  It
    blocks for one keystroke per iteration; [None] is the loop still waiting
    for a keystroke when the script is used up. *)
Fixpoint run_loop {L} `{Driver L} (keys : list Z) (l : L) : option L :=
  match keys with
  | [] => None
  | c :: keys' =>
      let '(leave, l') := iteration c l in
      if leave then Some l' else run_loop keys' l'
  end.

(** The state after the iterations on [keys], none of them leaving. *)
Definition iterations {L} `{Driver L} (keys : list Z) (l : L) : L :=
  foldl (λ l c, snd (iteration c l)) l keys.

(** No iteration on [keys] signals the exit action. *)
Fixpoint no_exit {L} `{Driver L} (keys : list Z) (l : L) : bool :=
  match keys with
  | [] => true
  | c :: keys' =>
      let '(leave, l') := iteration c l in
      negb leave && no_exit keys' l'
  end.

(** Reading [a[i]] from a C array.  A null array pointer is the empty list;
    reading outside the array is undefined behaviour. *)
Definition array_read {A} (a : list A) (i : Z) : outcome A :=
  if i <? 0 then Undefined
  else match a !! Z.to_nat i with
       | Some x => Ret x
       | None => Undefined
       end.

(** What the panel library answers to the calls of NCursesPanel, and the
    value [OK] of <curses.h>; neither header is part of the binding. *)
Class PanelCalls : Type := {
  OK : Z;
  hide_panel : ptr → Z;
  show_panel : ptr → Z;
  top_panel : ptr → Z;
  bottom_panel : ptr → Z;
  move_panel : ptr → Z → Z → Z
}.

(** ** cursesw.h *)

(** The value of an [int] expression, in two's complement on 32 bits. *)
Definition as_int (z : Z) : Z := (z + 2 ^ 31) `mod` 2 ^ 32 - 2 ^ 31.

(** What <curses.h> answers for the size of a window. *)
Class WindowCalls : Type := {
  getmaxx : ptr → Z;
  getmaxy : ptr → Z
}.

Module NCursesWindow.
Record t : Type := mk {
  w : ptr     (* the curses WINDOW *)
}.

(** [int maxx() const] *)
Definition maxx `{EtiCodes} `{WindowCalls} (o : t) : Z :=
  if decide (getmaxx (w o) = ERR) then ERR else as_int (getmaxx (w o) - 1).

(** [int maxy() const] *)
Definition maxy `{EtiCodes} `{WindowCalls} (o : t) : Z :=
  if decide (getmaxy (w o) = ERR) then ERR else as_int (getmaxy (w o) - 1).

(** [int height() const] *)
Definition height `{EtiCodes} `{WindowCalls} (o : t) : Z := as_int (maxy o + 1).

(** [int width() const] *)
Definition width `{EtiCodes} `{WindowCalls} (o : t) : Z := as_int (maxx o + 1).
End NCursesWindow.

(** [typedef enum { REQ_PAD_REFRESH = KEY_MAX + 1, ... } Pad_Request];
    [KEY_MAX] is a value of <curses.h>. *)
Module Pad_Request.
Inductive t : Type :=
| REQ_PAD_REFRESH
| REQ_PAD_UP
| REQ_PAD_DOWN
| REQ_PAD_LEFT
| REQ_PAD_RIGHT
| REQ_PAD_EXIT.

Definition to_int (KEY_MAX : Z) (r : t) : Z :=
  match r with
  | REQ_PAD_REFRESH => KEY_MAX + 1
  | REQ_PAD_UP => KEY_MAX + 2
  | REQ_PAD_DOWN => KEY_MAX + 3
  | REQ_PAD_LEFT => KEY_MAX + 4
  | REQ_PAD_RIGHT => KEY_MAX + 5
  | REQ_PAD_EXIT => KEY_MAX + 6
  end.

(** [const Pad_Request PAD_LOW = REQ_PAD_REFRESH] *)
Definition PAD_LOW : t := REQ_PAD_REFRESH.

(** [const Pad_Request PAD_HIGH = REQ_PAD_EXIT] *)
Definition PAD_HIGH : t := REQ_PAD_EXIT.
End Pad_Request.

(** ** cursesp.h *)

Module NCursesPanel.
Record t : Type := mk {
  this : ptr;     (* the address of the object *)
  p : ptr         (* PANEL *p *)
}.

(** [inline UserHook *UserPointer()] *)
Definition UserPointer (lib : curses.Library) (o : t) : ptr :=
  curses.panel_userptr lib (p o).

(** [void set_user(void *user)] *)
Definition set_user (lib : curses.Library) (o : t) (user : ptr)
    (heap : gmap Z UserHook) : outcome (gmap Z UserHook) :=
  let uptr := UserPointer lib o in
  if decide (uptr = NULL) then Ret heap
  else
    hook ← deref heap uptr;
    if decide (m_back hook = this o ∧ m_owner hook = p o)
    then Ret (<[uptr := set_m_user user hook]> heap)
    else Ret heap.

(** [void *get_user()] *)
Definition get_user (lib : curses.Library) (o : t)
    (heap : gmap Z UserHook) : outcome ptr :=
  let uptr := UserPointer lib o in
  let result := NULL in
  if decide (uptr = NULL) then Ret result
  else
    hook ← deref heap uptr;
    if decide (m_back hook = this o ∧ m_owner hook = p o)
    then Ret (m_user hook)
    else Ret result.

(** [void OnError (int err) const] *)
Definition OnError `{EtiCodes} (tc : Toolchain) (o : t) (err : Z) : outcome unit :=
  if decide (err = ERR) then THROW tc (NCursesPanelException_err (this o) err)
  else Ret tt.

(** The virtual decorations [frame], [boldframe] and [label] of the base
    class.  They are declared in cursesp.h and defined in the binding's
    implementation file: an instance of this class stands for their bodies,
    acting on a screen of type [W]. *)
Class Decorations (W : Type) : Type := {
  frame : t → cstr → cstr → W → outcome W;
  boldframe : t → cstr → cstr → W → outcome W;
  label : t → cstr → cstr → W → outcome W
}.

(** [inline void hide()] *)
Definition hide `{EtiCodes} `{PanelCalls} (tc : Toolchain) (o : t) : outcome unit :=
  OnError tc o (hide_panel (p o)).

(** [inline void show()] *)
Definition show `{EtiCodes} `{PanelCalls} (tc : Toolchain) (o : t) : outcome unit :=
  OnError tc o (show_panel (p o)).

(** [inline void top()] *)
Definition top `{EtiCodes} `{PanelCalls} (tc : Toolchain) (o : t) : outcome unit :=
  OnError tc o (top_panel (p o)).

(** [inline void bottom()] *)
Definition bottom `{EtiCodes} `{PanelCalls} (tc : Toolchain) (o : t) : outcome unit :=
  OnError tc o (bottom_panel (p o)).

(** [virtual int mvwin(int y, int x)] *)
Definition mvwin `{EtiCodes} `{PanelCalls} (tc : Toolchain) (o : t) (y x : Z) : outcome Z :=
  _ ← OnError tc o (move_panel (p o) y x); Ret OK.

(** [inline NCursesPanel& above() const]; [dummy] is the static member
    [NCursesPanel::dummy]. *)
Definition above `{EtiCodes} (tc : Toolchain) (dummy : ptr) (o : t) : outcome ptr :=
  _ ← OnError tc o ERR; Ret dummy.

(** [inline NCursesPanel& below() const] *)
Definition below `{EtiCodes} (tc : Toolchain) (dummy : ptr) (o : t) : outcome ptr :=
  _ ← OnError tc o ERR; Ret dummy.

(** [NCursesPanel(const NCursesPanel& rhs) : NCursesWindow(rhs), p(rhs.p)]:
    the copy, an object at the address [addr]. *)
Definition copy (addr : ptr) (rhs : t) : t := {| this := addr; p := p rhs |}.
End NCursesPanel.

(** [template<class T> class NCursesUserPanel : public NCursesPanel] *)
Module NCursesUserPanel.
(** The body of the constructors, after the panel has been constructed:
    [if (p) set_user(p_UserData)]. *)
Definition construct (lib : curses.Library) (o : NCursesPanel.t) (p_UserData : ptr)
    (heap : gmap Z UserHook) : outcome (gmap Z UserHook) :=
  if decide (NCursesPanel.p o = NULL) then Ret heap
  else NCursesPanel.set_user lib o p_UserData heap.

(** [T* UserData (void)] *)
Definition UserData (lib : curses.Library) (o : NCursesPanel.t)
    (heap : gmap Z UserHook) : outcome ptr :=
  NCursesPanel.get_user lib o heap.

(** [virtual void setUserData (const T* p_UserData)] *)
Definition setUserData (lib : curses.Library) (o : NCursesPanel.t) (p_UserData : ptr)
    (heap : gmap Z UserHook) : outcome (gmap Z UserHook) :=
  if decide (NCursesPanel.p o = NULL) then Ret heap
  else NCursesPanel.set_user lib o p_UserData heap.
End NCursesUserPanel.

(** ** cursesm.h *)

Module NCursesMenuItem.
Record t : Type := mk {
  this : ptr;     (* the address of the object *)
  item : ptr      (* ITEM *item; null for the delimiting item *)
}.

(** [inline int (index) (void) const] *)
Definition index (lib : curses.Library) (o : t) : Z :=
  curses.item_index lib (item o).

(** [inline void OnError (int err) const]: the exception carries no menu. *)
Definition OnError `{EtiCodes} (tc : Toolchain) (err : Z) : outcome unit :=
  if decide (err = E_OK) then Ret tt
  else THROW tc (NCursesMenuException_err NULL err).

(** [NCursesMenuItem (const char* p_name = NULL, const char* p_descript =
    NULL)]: the object constructed at the address [addr]; [new_item] is the
    answer of the menu library. *)
Definition construct `{EtiCodes} (tc : Toolchain) (new_item : string → cstr → ptr)
    (addr : ptr) (p_name p_descript : cstr) : outcome t :=
  let item := match p_name with
              | Some name => new_item name p_descript
              | None => NULL
              end in
  _ ← (if bool_decide (p_name ≠ None ∧ item = NULL)
       then OnError tc E_SYSTEM_ERROR else Ret tt);
  Ret {| this := addr; item := item |}.

(** [NCursesMenuItem(const NCursesMenuItem& rhs) : item(0)] *)
Definition copy (addr : ptr) (rhs : t) : t := {| this := addr; item := NULL |}.
End NCursesMenuItem.

Module NCursesMenu.
Record t : Type := mk {
  base : NCursesPanel.t;                (* the NCursesPanel subobject *)
  menu : ptr;                           (* MENU *menu *)
  sub : ptr;                            (* the subwindow object *)
  b_sub_owner : bool;                   (* is this our own subwindow? *)
  b_framed : bool;                      (* has the menu a border? *)
  b_autoDelete : bool;                  (* delete items when deleting menu? *)
  my_items : list NCursesMenuItem.t     (* the array of items for this menu *)
}.

Definition this (o : t) : ptr := NCursesPanel.this (base o).

(** [static inline NCursesMenu* getHook(const MENU *m)] *)
Definition getHook (lib : curses.Library) (heap : gmap Z UserHook) (m : ptr) : outcome ptr :=
  let hook := curses.menu_userptr lib m in
  (* assert(hook != 0 && hook->m_owner==m) *)
  if decide (hook = NULL) then Abort
  else
    h ← deref heap hook;
    if decide (m_owner h = m) then Ret (m_back h) else Abort.

(** [inline void set_user(void *user)] *)
Definition set_user (lib : curses.Library) (o : t) (user : ptr)
    (heap : gmap Z UserHook) : outcome (gmap Z UserHook) :=
  let uptr := curses.menu_userptr lib (menu o) in
  (* assert (uptr != 0 && uptr->m_back==this && uptr->m_owner==menu) *)
  if decide (uptr = NULL) then Abort
  else
    hook ← deref heap uptr;
    if decide (m_back hook = this o ∧ m_owner hook = menu o)
    then Ret (<[uptr := set_m_user user hook]> heap)
    else Abort.

(** [inline void *get_user()] *)
Definition get_user (lib : curses.Library) (o : t)
    (heap : gmap Z UserHook) : outcome ptr :=
  let uptr := curses.menu_userptr lib (menu o) in
  if decide (uptr = NULL) then Abort
  else
    hook ← deref heap uptr;
    if decide (m_back hook = this o ∧ m_owner hook = menu o)
    then Ret (m_user hook)
    else Abort.

(** [inline void OnError (int err) const] *)
Definition OnError `{EtiCodes} (tc : Toolchain) (o : t) (err : Z) : outcome unit :=
  if decide (err = E_OK) then Ret tt
  else THROW tc (NCursesMenuException_err (this o) err).

(** The 'internal' constructor, [NCursesMenu(nlines, ncols, begin_y,
    begin_x)], on top of the panel it constructs first. *)
Definition internal (panel : NCursesPanel.t) : t :=
  {| base := panel; menu := NULL; sub := NULL; b_sub_owner := false;
     b_framed := false; b_autoDelete := false; my_items := [] |}.

(** [inline int count() const] *)
Definition count (lib : curses.Library) (o : t) : Z :=
  curses.item_count lib (menu o).

(** [inline NCursesMenuItem* current_item() const] *)
Definition current_item (lib : curses.Library) (o : t) : outcome NCursesMenuItem.t :=
  array_read (my_items o) (curses.item_index lib (curses.current_item lib (menu o))).

(** [inline void frame(const char *title=NULL, const char* btitle=NULL)] *)
Definition frame `{EtiCodes} {W} `{NCursesPanel.Decorations W} (tc : Toolchain)
    (o : t) (title btitle : cstr) (w : W) : outcome W :=
  if b_framed o then NCursesPanel.frame (base o) title btitle w
  else _ ← OnError tc o E_SYSTEM_ERROR; Ret w.

(** [inline void boldframe(const char *title=NULL, const char* btitle=NULL)] *)
Definition boldframe `{EtiCodes} {W} `{NCursesPanel.Decorations W} (tc : Toolchain)
    (o : t) (title btitle : cstr) (w : W) : outcome W :=
  if b_framed o then NCursesPanel.boldframe (base o) title btitle w
  else _ ← OnError tc o E_SYSTEM_ERROR; Ret w.

(** [inline void label(const char *topLabel, const char *bottomLabel)] *)
Definition label `{EtiCodes} {W} `{NCursesPanel.Decorations W} (tc : Toolchain)
    (o : t) (topLabel bottomLabel : cstr) (w : W) : outcome W :=
  if b_framed o then NCursesPanel.label (base o) topLabel bottomLabel w
  else _ ← OnError tc o E_SYSTEM_ERROR; Ret w.

(** [inline NCursesMenuItem* operator[](int i) const] *)
Definition operator_subscript `{EtiCodes} (tc : Toolchain) (lib : curses.Library)
    (o : t) (i : Z) : outcome NCursesMenuItem.t :=
  _ ← (if (i <? 0) || (i >=? curses.item_count lib (menu o))
       then OnError tc o E_BAD_ARGUMENT else Ret tt);
  array_read (my_items o) i.

(** The children of a collection: the entries before the delimiting item. *)
Fixpoint children (nitems : list NCursesMenuItem.t) : list NCursesMenuItem.t :=
  match nitems with
  | [] => []
  | x :: rest =>
      if decide (NCursesMenuItem.item x = NULL) then []
      else x :: children rest
  end.

(** Modelled from the spec: the raw handle array of [mapItems]
    (NCursesMenu::mapItems is not among the sources): "a parallel raw-handle
    array of identical length", the handles of the children up to the
    delimiting item.  An array without delimiting item is read past its
    end. *)
Fixpoint handles (nitems : list NCursesMenuItem.t) : outcome (list ptr) :=
  match nitems with
  | [] => Undefined
  | x :: rest =>
      if decide (NCursesMenuItem.item x = NULL) then Ret []
      else raw ← handles rest; Ret (NCursesMenuItem.item x :: raw)
  end.

(** Modelled from the spec: [ITEM** mapItems(NCursesMenuItem* nitems[])]
    (its body is not among the sources): the raw handle array, and the
    wrapper array recorded in [my_items]. *)
Definition mapItems (o : t) (nitems : list NCursesMenuItem.t) : outcome (list ptr * t) :=
  raw ← handles nitems;
  Ret (raw, {| base := base o; menu := menu o; sub := sub o;
               b_sub_owner := b_sub_owner o; b_framed := b_framed o;
               b_autoDelete := b_autoDelete o; my_items := nitems |}).

(** [inline void setItems(NCursesMenuItem* Items[])] *)
Definition setItems `{Connect} (tc : Toolchain) (lib : curses.Library) (o : t)
    (Items : list NCursesMenuItem.t) : outcome (t * curses.Library) :=
  '(raw, o') ← mapItems o Items;
  let '(err, lib') := set_menu_items lib (menu o') raw in
  _ ← OnError tc o' err;
  Ret (o', lib').

(** The children of the menu are in index sync with the library. *)
Definition index_sync (lib : curses.Library) (o : t) : Prop :=
  ∀ (i : nat) w, children (my_items o) !! i = Some w →
    curses.item_index lib (NCursesMenuItem.item w) = Z.of_nat i.

(** Modelled from the spec: [virtual NCursesMenuItem* operator()(void)] (its
    body is not among the sources), on a scripted input: the run loop, and
    then "the item where you left the selection mark for a single selection
    menu, or NULL for a multivalued menu" ([one_value] tells which). *)
Definition operator_call {L} `{Driver L} (one_value : bool) (keys : list Z)
    (l : L) (o : t) : option (outcome (option NCursesMenuItem.t) * L) :=
  match run_loop keys l with
  | None => None
  | Some l' =>
      Some (if one_value then w ← current_item (observe l') o; Ret (Some w)
            else Ret None, l')
  end.

(** [NCursesMenu(const NCursesMenu& rhs)]: the copy, an object at the
    address [addr]. *)
Definition copy (addr : ptr) (rhs : t) : t :=
  {| base := NCursesPanel.copy addr (base rhs); menu := menu rhs; sub := sub rhs;
     b_sub_owner := b_sub_owner rhs; b_framed := b_framed rhs;
     b_autoDelete := b_autoDelete rhs; my_items := my_items rhs |}.
End NCursesMenu.

(** [template<class T> class NCursesUserMenu : public NCursesMenu] *)
Module NCursesUserMenu.
(** The protected constructor [NCursesUserMenu(nlines, ncols, begin_y,
    begin_x, p_UserData)], on top of the panel constructed first:
    [NCursesMenu(nlines,ncols,begin_y,begin_x)] and then
    [if (menu) set_user(p_UserData)]. *)
Definition internal (lib : curses.Library) (panel : NCursesPanel.t) (p_UserData : ptr)
    (heap : gmap Z UserHook) : outcome (NCursesMenu.t * gmap Z UserHook) :=
  let o := NCursesMenu.internal panel in
  if decide (NCursesMenu.menu o = NULL) then Ret (o, heap)
  else heap' ← NCursesMenu.set_user lib o p_UserData heap; Ret (o, heap').

(** [inline T* UserData (void)] *)
Definition UserData (lib : curses.Library) (o : NCursesMenu.t)
    (heap : gmap Z UserHook) : outcome ptr :=
  NCursesMenu.get_user lib o heap.

(** [inline virtual void setUserData (const T* p_UserData)] *)
Definition setUserData (lib : curses.Library) (o : NCursesMenu.t) (p_UserData : ptr)
    (heap : gmap Z UserHook) : outcome (gmap Z UserHook) :=
  if decide (NCursesMenu.menu o = NULL) then Ret heap
  else NCursesMenu.set_user lib o p_UserData heap.
End NCursesUserMenu.

(** ** cursesf.h *)

Module NCursesFormField.
Record t : Type := mk {
  this : ptr;     (* the address of the object *)
  field : ptr;    (* FIELD *field; null for the delimiting field *)
  ftype : ptr     (* the associated field type *)
}.

(** [inline void OnError (int err) const] *)
Definition OnError `{EtiCodes} (tc : Toolchain) (err : Z) : outcome unit :=
  if decide (err = E_OK) then Ret tt
  else THROW tc (NCursesFormException_err NULL err).

(** [NCursesFormField (int rows, int ncols, ...)]: the object constructed at
    the address [addr]; [new_field] is the handle the form library answers
    with and [errno] the error number it leaves. *)
Definition construct `{EtiCodes} (tc : Toolchain) (new_field errno : Z) (addr : ptr)
    : outcome t :=
  _ ← (if decide (new_field = NULL) then OnError tc errno else Ret tt);
  Ret {| this := addr; field := new_field; ftype := NULL |}.

(** [inline NCursesFormField* dup(int first_row, int first_col)]: [f] is
    the address [new NCursesFormField()] gives, [dup_field] the handle the
    form library answers with and [errno] the error number it leaves.  The
    result is the pointer [f] and, unless it is null, the object it points
    to. *)
Definition dup `{EtiCodes} (tc : Toolchain) (f dup_field errno : Z) (o : t)
    : outcome (ptr * option t) :=
  if decide (f = NULL) then
    _ ← OnError tc E_SYSTEM_ERROR; Ret (f, None)
  else
    _ ← (if decide (dup_field = NULL) then OnError tc errno else Ret tt);
    Ret (f, Some {| this := f; field := dup_field; ftype := ftype o |}).

(** [inline NCursesFormField* link(int first_row, int first_col)] *)
Definition link `{EtiCodes} (tc : Toolchain) (f link_field errno : Z) (o : t)
    : outcome (ptr * option t) :=
  if decide (f = NULL) then
    _ ← OnError tc E_SYSTEM_ERROR; Ret (f, None)
  else
    _ ← (if decide (link_field = NULL) then OnError tc errno else Ret tt);
    Ret (f, Some {| this := f; field := link_field; ftype := ftype o |}).
End NCursesFormField.

Module NCursesForm.
Record t : Type := mk {
  base : NCursesPanel.t;                 (* the NCursesPanel subobject *)
  form : ptr;                            (* FORM *form *)
  sub : ptr;                             (* the subwindow object *)
  b_sub_owner : bool;                    (* is this our own subwindow? *)
  b_framed : bool;                       (* has the form a border? *)
  b_autoDelete : bool;                   (* delete fields when deleting form? *)
  my_fields : list NCursesFormField.t    (* the array of fields for this form *)
}.

Definition this (o : t) : ptr := NCursesPanel.this (base o).

(** [static inline NCursesForm* getHook(const FORM *f)] *)
Definition getHook (lib : curses.Library) (heap : gmap Z UserHook) (f : ptr) : outcome ptr :=
  let hook := curses.form_userptr lib f in
  (* assert(hook != 0 && hook->m_owner==f) *)
  if decide (hook = NULL) then Abort
  else
    h ← deref heap hook;
    if decide (m_owner h = f) then Ret (m_back h) else Abort.

(** [inline void set_user(void *user)] *)
Definition set_user (lib : curses.Library) (o : t) (user : ptr)
    (heap : gmap Z UserHook) : outcome (gmap Z UserHook) :=
  let uptr := curses.form_userptr lib (form o) in
  (* assert (uptr != 0 && uptr->m_back==this && uptr->m_owner==form) *)
  if decide (uptr = NULL) then Abort
  else
    hook ← deref heap uptr;
    if decide (m_back hook = this o ∧ m_owner hook = form o)
    then Ret (<[uptr := set_m_user user hook]> heap)
    else Abort.

(** [inline void *get_user()] *)
Definition get_user (lib : curses.Library) (o : t)
    (heap : gmap Z UserHook) : outcome ptr :=
  let uptr := curses.form_userptr lib (form o) in
  if decide (uptr = NULL) then Abort
  else
    hook ← deref heap uptr;
    if decide (m_back hook = this o ∧ m_owner hook = form o)
    then Ret (m_user hook)
    else Abort.

(** [inline void OnError (int err) const]: the exception carries no form. *)
Definition OnError `{EtiCodes} (tc : Toolchain) (o : t) (err : Z) : outcome unit :=
  if decide (err = E_OK) then Ret tt
  else THROW tc (NCursesFormException_err NULL err).

(** The 'internal' constructor, [NCursesForm(nlines, ncols, begin_y,
    begin_x)], on top of the panel it constructs first. *)
Definition internal (panel : NCursesPanel.t) : t :=
  {| base := panel; form := NULL; sub := NULL; b_sub_owner := false;
     b_framed := false; b_autoDelete := false; my_fields := [] |}.

(** [int count() const] *)
Definition count (lib : curses.Library) (o : t) : Z :=
  curses.field_count lib (form o).

(** [inline NCursesFormField* current_field() const] *)
Definition current_field (lib : curses.Library) (o : t) : outcome NCursesFormField.t :=
  array_read (my_fields o) (curses.field_index lib (curses.current_field lib (form o))).

(** [inline void frame(const char *title=NULL, const char* btitle=NULL)] *)
Definition frame `{EtiCodes} {W} `{NCursesPanel.Decorations W} (tc : Toolchain)
    (o : t) (title btitle : cstr) (w : W) : outcome W :=
  if b_framed o then NCursesPanel.frame (base o) title btitle w
  else _ ← OnError tc o E_SYSTEM_ERROR; Ret w.

(** [inline void boldframe(const char *title=NULL, const char* btitle=NULL)] *)
Definition boldframe `{EtiCodes} {W} `{NCursesPanel.Decorations W} (tc : Toolchain)
    (o : t) (title btitle : cstr) (w : W) : outcome W :=
  if b_framed o then NCursesPanel.boldframe (base o) title btitle w
  else _ ← OnError tc o E_SYSTEM_ERROR; Ret w.

(** [inline void label(const char *topLabel, const char *bottomLabel)] *)
Definition label `{EtiCodes} {W} `{NCursesPanel.Decorations W} (tc : Toolchain)
    (o : t) (topLabel bottomLabel : cstr) (w : W) : outcome W :=
  if b_framed o then NCursesPanel.label (base o) topLabel bottomLabel w
  else _ ← OnError tc o E_SYSTEM_ERROR; Ret w.

(** [inline NCursesFormField* operator[](int i) const] *)
Definition operator_subscript `{EtiCodes} (tc : Toolchain) (lib : curses.Library)
    (o : t) (i : Z) : outcome NCursesFormField.t :=
  _ ← (if (i <? 0) || (i >=? curses.field_count lib (form o))
       then OnError tc o E_BAD_ARGUMENT else Ret tt);
  array_read (my_fields o) i.

(** The children of a collection: the entries before the delimiting field. *)
Fixpoint children (nfields : list NCursesFormField.t) : list NCursesFormField.t :=
  match nfields with
  | [] => []
  | x :: rest =>
      if decide (NCursesFormField.field x = NULL) then []
      else x :: children rest
  end.

(** Modelled from the spec: the raw handle array of [mapFields]
    (NCursesForm::mapFields is not among the sources): the handles of the
    children up to the delimiting field. *)
Fixpoint handles (nfields : list NCursesFormField.t) : outcome (list ptr) :=
  match nfields with
  | [] => Undefined
  | x :: rest =>
      if decide (NCursesFormField.field x = NULL) then Ret []
      else raw ← handles rest; Ret (NCursesFormField.field x :: raw)
  end.

(** Modelled from the spec: [FIELD** mapFields(NCursesFormField* nfields[])]
    (its body is not among the sources): the raw handle array, and the
    wrapper array recorded in [my_fields]. *)
Definition mapFields (o : t) (nfields : list NCursesFormField.t) : outcome (list ptr * t) :=
  raw ← handles nfields;
  Ret (raw, {| base := base o; form := form o; sub := sub o;
               b_sub_owner := b_sub_owner o; b_framed := b_framed o;
               b_autoDelete := b_autoDelete o; my_fields := nfields |}).

(** [inline void setFields(NCursesFormField* Fields[])] *)
Definition setFields `{Connect} (tc : Toolchain) (lib : curses.Library) (o : t)
    (Fields : list NCursesFormField.t) : outcome (t * curses.Library) :=
  '(raw, o') ← mapFields o Fields;
  let '(err, lib') := set_form_fields lib (form o') raw in
  _ ← OnError tc o' err;
  Ret (o', lib').

(** The children of the form are in index sync with the library. *)
Definition index_sync (lib : curses.Library) (o : t) : Prop :=
  ∀ (i : nat) w, children (my_fields o) !! i = Some w →
    curses.field_index lib (NCursesFormField.field w) = Z.of_nat i.

(** Modelled from the spec: [virtual NCursesFormField* operator()(void)]
    (its body is not among the sources), on a scripted input: the run loop,
    and then the field where the form was left. *)
Definition operator_call {L} `{Driver L} (keys : list Z)
    (l : L) (o : t) : option (outcome NCursesFormField.t * L) :=
  match run_loop keys l with
  | None => None
  | Some l' => Some (current_field (observe l') o, l')
  end.

(** [NCursesForm(const NCursesForm& rhs)]: the copy, an object at the
    address [addr]. *)
Definition copy (addr : ptr) (rhs : t) : t :=
  {| base := NCursesPanel.copy addr (base rhs); form := form rhs; sub := sub rhs;
     b_sub_owner := b_sub_owner rhs; b_framed := b_framed rhs;
     b_autoDelete := b_autoDelete rhs; my_fields := my_fields rhs |}.
End NCursesForm.

(** [template<class T> class NCursesUserForm : public NCursesForm] *)
Module NCursesUserForm.
(** The protected constructor [NCursesUserForm(nlines, ncols, begin_y,
    begin_x, p_UserData)], on top of the panel constructed first. *)
Definition internal (lib : curses.Library) (panel : NCursesPanel.t) (p_UserData : ptr)
    (heap : gmap Z UserHook) : outcome (NCursesForm.t * gmap Z UserHook) :=
  let o := NCursesForm.internal panel in
  if decide (NCursesForm.form o = NULL) then Ret (o, heap)
  else heap' ← NCursesForm.set_user lib o p_UserData heap; Ret (o, heap').

(** [inline T* UserData (void)] *)
Definition UserData (lib : curses.Library) (o : NCursesForm.t)
    (heap : gmap Z UserHook) : outcome ptr :=
  NCursesForm.get_user lib o heap.

(** [inline virtual void setUserData (const T* p_UserData)] *)
Definition setUserData (lib : curses.Library) (o : NCursesForm.t) (p_UserData : ptr)
    (heap : gmap Z UserHook) : outcome (gmap Z UserHook) :=
  if decide (NCursesForm.form o = NULL) then Ret heap
  else NCursesForm.set_user lib o p_UserData heap.
End NCursesUserForm.

(** ** Virtual dispatch over the Panel classes *)

(** An object of static type NCursesPanel, by its dynamic class. *)
Inductive PanelObject : Type :=
| APanel (o : NCursesPanel.t)
| AMenu (o : NCursesMenu.t)
| AForm (o : NCursesForm.t).

Inductive decoration : Type := d_frame | d_boldframe | d_label.

(** The framed flag of the object; NCursesPanel itself declares none. *)
Definition framed_flag (o : PanelObject) : option bool :=
  match o with
  | APanel _ => None
  | AMenu m => Some (NCursesMenu.b_framed m)
  | AForm f => Some (NCursesForm.b_framed f)
  end.

Definition panel_of (o : PanelObject) : NCursesPanel.t :=
  match o with
  | APanel p => p
  | AMenu m => NCursesMenu.base m
  | AForm f => NCursesForm.base f
  end.

(** The base operation [NCursesPanel::d]. *)
Definition base_decoration {W} `{NCursesPanel.Decorations W} (d : decoration)
    (p : NCursesPanel.t) (title btitle : cstr) (w : W) : outcome W :=
  match d with
  | d_frame => NCursesPanel.frame p title btitle w
  | d_boldframe => NCursesPanel.boldframe p title btitle w
  | d_label => NCursesPanel.label p title btitle w
  end.

(** The call [o->d(title, btitle)], resolved by the dynamic class of [o]. *)
Definition decorate `{EtiCodes} {W} `{NCursesPanel.Decorations W} (tc : Toolchain)
    (d : decoration) (o : PanelObject) (title btitle : cstr) (w : W) : outcome W :=
  match o, d with
  | APanel p, _ => base_decoration d p title btitle w
  | AMenu m, d_frame => NCursesMenu.frame tc m title btitle w
  | AMenu m, d_boldframe => NCursesMenu.boldframe tc m title btitle w
  | AMenu m, d_label => NCursesMenu.label tc m title btitle w
  | AForm f, d_frame => NCursesForm.frame tc f title btitle w
  | AForm f, d_boldframe => NCursesForm.boldframe tc f title btitle w
  | AForm f, d_label => NCursesForm.label tc f title btitle w
  end.

(** ** cursslk.h *)

Module Soft_Label_Key.
Inductive Justification : Type := Left | Center | Right.

Record t : Type := mk {
  label : cstr;              (* the text of the label *)
  format : Justification;    (* the justification *)
  num : Z                    (* the number of the label *)
}.

(** [Soft_Label_Key() : label(NULL), format(Left), num(-1)] *)
Definition default : t := {| label := None; format := Left; num := -1 |}.
End Soft_Label_Key.

Module Label_Layout.
Inductive t : Type :=
| None                   (* = -1 *)
| Three_Two_Three        (* = 0 *)
| Four_Four              (* = 1 *)
| PC_Style               (* = 2 *)
| PC_Style_With_Index.   (* = 3 *)

Definition to_int (l : t) : Z :=
  match l with
  | None => -1
  | Three_Two_Three => 0
  | Four_Four => 1
  | PC_Style => 2
  | PC_Style_With_Index => 3
  end.

#[global] Instance eq_dec : EqDecision t.
Proof. solve_decision. Defined.
End Label_Layout.

Module Soft_Label_Key_Set.
(** The static members of the class. *)
Record statics : Type := {
  count : Z;                    (* number of key sets *)
  format : Label_Layout.t;      (* layout of the key sets *)
  num_labels : Z                (* number of labels in key sets *)
}.

Record t : Type := mk {
  b_attrInit : bool;                      (* are attributes initialized *)
  slk_array : list Soft_Label_Key.t       (* the array of SLK's *)
}.

(** [inline void Error (const char* msg) const] *)
Definition Error `{EtiCodes} {A} (tc : Toolchain) (msg : string) : outcome A :=
  THROW tc (NCursesException_msg msg).

(** The private members [activate_label(int i, bool bf)] and
    [activate_labels(bool bf)].  They are declared in cursslk.h and defined
    in the binding's implementation file: an instance of this class stands
    for their bodies, acting on a state [S] (the key set and the screen). *)
Class Activation (S : Type) : Type := {
  activate_label : Z → bool → S → outcome S;
  activate_labels : bool → S → outcome S
}.

(** The calls of these two members, as they are issued. *)
Inductive call : Type :=
| call_activate_label (i : Z) (bf : bool)
| call_activate_labels (bf : bool).

(** A run: the calls issued so far, and where the run stands. *)
Definition traced (S : Type) : Type := (list call * outcome S)%type.

Definition start {S} (s : S) : traced S := ([], Ret s).

(** The statement [activate_label(i, bf);] — reached only when everything
    before it has returned. *)
Definition do_activate_label {S} `{Activation S} (i : Z) (bf : bool)
    (x : traced S) : traced S :=
  match x with
  | (log, Ret s) => (log ++ [call_activate_label i bf], activate_label i bf s)
  | _ => x
  end.

(** The statement [activate_labels(bf);] *)
Definition do_activate_labels {S} `{Activation S} (bf : bool)
    (x : traced S) : traced S :=
  match x with
  | (log, Ret s) => (log ++ [call_activate_labels bf], activate_labels bf s)
  | _ => x
  end.

(** [inline void show(int i)] *)
Definition show_label {S} `{Activation S} (i : Z) (s : S) : traced S :=
  do_activate_label i true (do_activate_label i false (start s)).

(** [inline void hide(int i)] *)
Definition hide_label {S} `{Activation S} (i : Z) (s : S) : traced S :=
  do_activate_label i false (start s).

(** [inline void show()] *)
Definition show {S} `{Activation S} (s : S) : traced S :=
  do_activate_labels true (do_activate_labels false (start s)).

(** [inline void hide()] *)
Definition hide {S} `{Activation S} (s : S) : traced S :=
  do_activate_labels false (start s).

(** Modelled from the spec: the initial values of the static members
    (cursslk.cc, which defines them, is not among the sources): no key set
    has been constructed and no layout is fixed. *)
Definition initial : statics :=
  {| count := 0; format := Label_Layout.None; num_labels := 0 |}.

(** Modelled from the spec: the key array of a fresh set
    (Soft_Label_Key_Set::init is not among the sources): [n] labels,
    numbered from 1. *)
Definition init (n : Z) : t :=
  {| b_attrInit := false;
     slk_array := (λ k, {| Soft_Label_Key.label := Datatypes.None;
                           Soft_Label_Key.format := Soft_Label_Key.Left;
                           Soft_Label_Key.num := k |}) <$> seqZ 1 n |}.

(** Modelled from the spec: the constructor
    [explicit Soft_Label_Key_Set(Label_Layout fmt)] (its body is not among
    the sources).  "Global layout (label count, geometry) is fixed once, at
    first-ever layer construction, and is immutable thereafter": the first
    construction fixes [format] and [num_labels] ([labels_of] gives the label
    count of a layout); a later one must name the layout that is fixed. *)
Definition construct_with_layout `{EtiCodes} (tc : Toolchain)
    (labels_of : Label_Layout.t → Z) (fmt : Label_Layout.t) (g : statics)
    : outcome (t * statics) :=
  if decide (fmt = Label_Layout.None) then Error tc "No explicit layout"
  else if decide (count g = 0) then
    let g' := {| count := 1; format := fmt; num_labels := labels_of fmt |} in
    Ret (init (num_labels g'), g')
  else if decide (fmt = format g) then
    Ret (init (num_labels g),
         {| count := count g + 1; format := format g; num_labels := num_labels g |})
  else Error tc "All SLKs must have same layout".

(** Modelled from the spec: the constructor [Soft_Label_Key_Set()] (its body
    is not among the sources).  "This constructor assumes, that you already
    constructed a Key Set with a layout by the constructor above. This layout
    will be reused." *)
Definition construct_default `{EtiCodes} (tc : Toolchain) (g : statics)
    : outcome (t * statics) :=
  if decide (format g = Label_Layout.None) then Error tc "No default SLK layout"
  else
    Ret (init (num_labels g),
         {| count := count g + 1; format := format g; num_labels := num_labels g |}).

(** Modelled from the spec: [int labels() const] (its body is not among the
    sources): "Retrieve number of Labels". *)
Definition labels (g : statics) : Z := num_labels g.

(** A request to construct a key set: with a layout, or by the default
    constructor. *)
Inductive request : Type :=
| with_layout (fmt : Label_Layout.t)
| by_default.

Definition construct `{EtiCodes} (tc : Toolchain) (labels_of : Label_Layout.t → Z)
    (r : request) (g : statics) : outcome (t * statics) :=
  match r with
  | with_layout fmt => construct_with_layout tc labels_of fmt g
  | by_default => construct_default tc g
  end.

(** A sequence of constructions.  A construction that does not return
    leaves the static members as they were; the sets built are collected
    with the request that built them. *)
Fixpoint constructions `{EtiCodes} (tc : Toolchain) (labels_of : Label_Layout.t → Z)
    (rs : list request) (g : statics) : list (request * t) * statics :=
  match rs with
  | [] => ([], g)
  | r :: rs' =>
      match construct tc labels_of r g with
      | Ret (s, g') =>
          let '(built, g'') := constructions tc labels_of rs' g' in
          ((r, s) :: built, g'')
      | _ => constructions tc labels_of rs' g
      end
  end.

(** The layout [fmt], with the label count [labels_of] gives it, is fixed. *)
Definition layout_fixed (labels_of : Label_Layout.t → Z) (fmt : Label_Layout.t)
    (g : statics) : Prop :=
  0 < count g
  ∧ fmt ≠ Label_Layout.None
  ∧ format g = fmt
  ∧ num_labels g = labels_of fmt.
End Soft_Label_Key_Set.

(** ** cursesapp.h *)

Module NCursesApplication.
(** [typedef struct _slk_link { struct _slk_link* prev;
    Soft_Label_Key_Set* SLKs; } SLK_Link]; a null [prev] is [None]. *)
#[warnings="-register-all"] Inductive SLK_Link : Type :=
| Build_SLK_Link (prev : option SLK_Link) (SLKs : ptr).

Definition prev (L : SLK_Link) : option SLK_Link :=
  match L with Build_SLK_Link p _ => p end.
Definition SLKs (L : SLK_Link) : ptr :=
  match L with Build_SLK_Link _ K => K end.

(** The static member [slk_stack]. *)
Record statics : Type := {
  slk_stack : option SLK_Link
}.

(** Modelled from the spec: the initial SLK stack (cursesapp.cc is not among
    the sources): no set has been pushed. *)
Definition initial : statics := {| slk_stack := Datatypes.None |}.

(** Modelled from the spec: [void push(Soft_Label_Key_Set& S)] (its body is
    not among the sources).  "push(layer) makes layer the current layer,
    recording the previously current layer as its predecessor." *)
Definition push (K : ptr) (st : statics) : statics :=
  {| slk_stack := Some (Build_SLK_Link (slk_stack st) K) |}.

(** Modelled from the spec: [bool pop()] (its body is not among the
    sources).  "pop() discards the current layer and restores its
    predecessor as current, returning false if the stack is empty." *)
Definition pop (st : statics) : bool * statics :=
  match slk_stack st with
  | Datatypes.None => (false, st)
  | Some L => (true, {| slk_stack := prev L |})
  end.

(** Modelled from the spec: [Soft_Label_Key_Set* top() const] (its body is
    not among the sources): the current set, null ([None]) when there is
    none. *)
Definition top (st : statics) : option ptr :=
  SLKs <$> slk_stack st.

(** Pushing every set of a list, first to last. *)
Definition push_all (l : list ptr) (st : statics) : statics :=
  foldl (λ st K, push K st) st l.

(** Popping [n] times. *)
Fixpoint pop_n (n : nat) (st : statics) : statics :=
  match n with
  | O => st
  | S n' => pop_n n' (snd (pop st))
  end.

End NCursesApplication.

(** ** Concrete instances, to run the definitions on *)

(** Decorations that draw nothing. *)
Definition plain_decorations : NCursesPanel.Decorations unit :=
  {| NCursesPanel.frame := λ _ _ _ w, Ret w;
     NCursesPanel.boldframe := λ _ _ _ w, Ret w;
     NCursesPanel.label := λ _ _ _ w, Ret w |}.

(** A library with no handle in use: no user data, no children. *)
Definition quiet_library : curses.Library :=
  {| curses.panel_userptr := λ _, NULL;
     curses.menu_userptr := λ _, NULL;
     curses.form_userptr := λ _, NULL;
     curses.item_count := λ _, -1;
     curses.field_count := λ _, -1;
     curses.item_index := λ _, -1;
     curses.field_index := λ _, -1;
     curses.current_item := λ _, NULL;
     curses.current_field := λ _, NULL |}.

(** A library in which the handle [h] (a panel, a menu or a form) carries
    the user data [u]. *)
Definition hooked_library (h u : ptr) : curses.Library :=
  {| curses.panel_userptr := λ x, if decide (x = h) then u else NULL;
     curses.menu_userptr := λ x, if decide (x = h) then u else NULL;
     curses.form_userptr := λ x, if decide (x = h) then u else NULL;
     curses.item_count := λ _, -1;
     curses.field_count := λ _, -1;
     curses.item_index := λ _, -1;
     curses.field_index := λ _, -1;
     curses.current_item := λ _, NULL;
     curses.current_field := λ _, NULL |}.

(** A menu of three items, "Alpha", "Beta" and "Gamma", closed by the
    delimiting item. *)
Definition three_items : list NCursesMenuItem.t :=
  [NCursesMenuItem.mk 10 110; NCursesMenuItem.mk 20 120;
   NCursesMenuItem.mk 30 130; NCursesMenuItem.mk 40 NULL].

Definition three_items_menu : NCursesMenu.t :=
  {| NCursesMenu.base := NCursesPanel.mk 640 2048; NCursesMenu.menu := 4096;
     NCursesMenu.sub := NULL; NCursesMenu.b_sub_owner := false;
     NCursesMenu.b_framed := false; NCursesMenu.b_autoDelete := true;
     NCursesMenu.my_items := three_items |}.

(** The library after the three items were connected to the menu at 4096,
    the selection on the item at [cur]. *)
Definition three_items_at (cur : ptr) : curses.Library :=
  {| curses.panel_userptr := λ _, NULL;
     curses.menu_userptr := λ _, NULL;
     curses.form_userptr := λ _, NULL;
     curses.item_count := λ m, if decide (m = 4096) then 3 else -1;
     curses.field_count := λ _, -1;
     curses.item_index := λ h,
       if decide (h = 110) then 0 else if decide (h = 120) then 1
       else if decide (h = 130) then 2 else -1;
     curses.field_index := λ _, -1;
     curses.current_item := λ m, if decide (m = 4096) then cur else NULL;
     curses.current_field := λ _, NULL |}.

Definition three_items_library : curses.Library := three_items_at 110.

(** The position of the first [h] in [l]. *)
Fixpoint index_of (h : ptr) (l : list ptr) : option nat :=
  match l with
  | [] => None
  | x :: l' => if decide (x = h) then Some 0%nat else S <$> index_of h l'
  end.

(** A library entry point that connects the items of [raw] to the menu [m]
    by their position, and refuses an array that names an item twice. *)
Definition connect_items (lib : curses.Library) (m : ptr) (raw : list ptr)
    : Z * curses.Library :=
  if bool_decide (NoDup raw) then
    (0, {| curses.panel_userptr := curses.panel_userptr lib;
           curses.menu_userptr := curses.menu_userptr lib;
           curses.form_userptr := curses.form_userptr lib;
           curses.item_count := λ x,
             if decide (x = m) then Z.of_nat (length raw) else curses.item_count lib x;
           curses.field_count := curses.field_count lib;
           curses.item_index := λ h,
             match index_of h raw with
             | Some i => Z.of_nat i
             | None => curses.item_index lib h
             end;
           curses.field_index := curses.field_index lib;
           curses.current_item := λ x,
             if decide (x = m) then default NULL (head raw)
             else curses.current_item lib x;
           curses.current_field := curses.current_field lib |})
  else (-2, lib).

(** The same for the fields of a form. *)
Definition connect_fields (lib : curses.Library) (f : ptr) (raw : list ptr)
    : Z * curses.Library :=
  if bool_decide (NoDup raw) then
    (0, {| curses.panel_userptr := curses.panel_userptr lib;
           curses.menu_userptr := curses.menu_userptr lib;
           curses.form_userptr := curses.form_userptr lib;
           curses.item_count := curses.item_count lib;
           curses.field_count := λ x,
             if decide (x = f) then Z.of_nat (length raw) else curses.field_count lib x;
           curses.item_index := curses.item_index lib;
           curses.field_index := λ h,
             match index_of h raw with
             | Some i => Z.of_nat i
             | None => curses.field_index lib h
             end;
           curses.current_item := curses.current_item lib;
           curses.current_field := λ x,
             if decide (x = f) then default NULL (head raw)
             else curses.current_field lib x |})
  else (-2, lib).

(** Label counts for the layouts: eight labels, twelve for the PC styles. *)
Definition labels_of_layout (fmt : Label_Layout.t) : Z :=
  if Label_Layout.to_int fmt >=? Label_Layout.to_int Label_Layout.PC_Style
  then 12 else 8.

(** An activation that keeps the list of the labels on display, and
    refuses a label number outside 1..8. *)
Definition displayed_labels : Soft_Label_Key_Set.Activation (list Z) :=
  {| Soft_Label_Key_Set.activate_label := λ i bf s,
       if (i <? 1) || (8 <? i) then Throw (NCursesException_ "slk_set" (-1))
       else Ret (if bf then i :: filter (λ j, j ≠ i) s else filter (λ j, j ≠ i) s);
     Soft_Label_Key_Set.activate_labels := λ bf s,
       Ret (if bf then seqZ 1 8 else []) |}.

(** A driver for the menu of three items.  The state is the handle of the
    current item.  Key 258 (down) is the request 515 (next item), key 10
    (enter) is the command 600 (action), any other key is passed on; the
    library moves the selection down, denies the request on the last item,
    and does not know the command 600; the action of an item leaves the
    loop. *)
Definition three_items_driver : Driver ptr :=
  {| observe := three_items_at;
     virtualize := λ c, if decide (c = 258) then 515
                        else if decide (c = 10) then 600 else c;
     driver := λ req cur,
       if decide (req = 515) then
         if decide (cur = 110) then (driver_ok, 120)
         else if decide (cur = 120) then (driver_ok, 130)
         else (request_denied, cur)
       else (unknown_command, cur);
     On_Request_Denied := λ _ cur, cur;
     On_Selection_Invalid := λ _ cur, cur;
     On_No_Match := λ _ cur, cur;
     On_Unknown_Command := λ _ cur, cur;
     action := λ req res cur,
       (match res with
        | unknown_command => bool_decide (req = 600)
        | _ => false
        end, cur) |}.

(** A panel library that refuses to hide the panel at 2048 and accepts
    every other call. *)
Definition stubborn_panels : PanelCalls :=
  {| OK := 0;
     hide_panel := λ p, if decide (p = 2048) then -1 else 0;
     show_panel := λ _, 0;
     top_panel := λ _, 0;
     bottom_panel := λ _, 0;
     move_panel := λ _ _ _, 0 |}.

(** A screen on which the window at 4096 has 24 lines and 80 columns; no
    other window exists. *)
Definition one_window : WindowCalls :=
  {| getmaxx := λ w, if decide (w = 4096) then 80 else -1;
     getmaxy := λ w, if decide (w = 4096) then 24 else -1 |}.

(** The menu at 4096 of the wrapper at 640, without items. *)
Definition hooked_menu : NCursesMenu.t :=
  {| NCursesMenu.base := NCursesPanel.mk 640 2048; NCursesMenu.menu := 4096;
     NCursesMenu.sub := NULL; NCursesMenu.b_sub_owner := false;
     NCursesMenu.b_framed := false; NCursesMenu.b_autoDelete := false;
     NCursesMenu.my_items := [] |}.

(** A form of three fields, closed by the delimiting field. *)
Definition three_fields : list NCursesFormField.t :=
  [NCursesFormField.mk 10 210 NULL; NCursesFormField.mk 20 220 NULL;
   NCursesFormField.mk 30 230 NULL; NCursesFormField.mk 40 NULL NULL].

Definition three_fields_form : NCursesForm.t :=
  {| NCursesForm.base := NCursesPanel.mk 1280 2304; NCursesForm.form := 8192;
     NCursesForm.sub := NULL; NCursesForm.b_sub_owner := false;
     NCursesForm.b_framed := false; NCursesForm.b_autoDelete := true;
     NCursesForm.my_fields := three_fields |}.

(** The library after the three fields were connected to the form at 8192,
    the field at [cur] being the current one. *)
Definition three_fields_at (cur : ptr) : curses.Library :=
  {| curses.panel_userptr := λ _, NULL;
     curses.menu_userptr := λ _, NULL;
     curses.form_userptr := λ _, NULL;
     curses.item_count := λ _, -1;
     curses.field_count := λ f, if decide (f = 8192) then 3 else -1;
     curses.item_index := λ _, -1;
     curses.field_index := λ h,
       if decide (h = 210) then 0 else if decide (h = 220) then 1
       else if decide (h = 230) then 2 else -1;
     curses.current_item := λ _, NULL;
     curses.current_field := λ f, if decide (f = 8192) then cur else NULL |}.

(** A driver for the form of three fields.  The state is the handle of the
    current field.  Key 9 (tab) is the request 516 (next field), key 27
    (escape) is the command 601 (quit), any other key is passed on; the
    library moves on to the next field, wrapping around after the last, and
    does not know the command 601, which leaves the loop. *)
Definition three_fields_driver : Driver ptr :=
  {| observe := three_fields_at;
     virtualize := λ c, if decide (c = 9) then 516
                        else if decide (c = 27) then 601 else c;
     driver := λ req cur,
       if decide (req = 516) then
         if decide (cur = 210) then (driver_ok, 220)
         else if decide (cur = 220) then (driver_ok, 230)
         else (driver_ok, 210)
       else (unknown_command, cur);
     On_Request_Denied := λ _ cur, cur;
     On_Selection_Invalid := λ _ cur, cur;
     On_No_Match := λ _ cur, cur;
     On_Unknown_Command := λ _ cur, cur;
     action := λ req res cur,
       (match res with
        | unknown_command => bool_decide (req = 601)
        | _ => false
        end, cur) |}.

(** * Properties *)

(** ** THROW *)

Lemma THROW_try_catch {A} tc e :
  CPP_HAS_TRY_CATCH tc = true → @THROW A tc e = Throw (sliced e).
Proof. unfold CPP_HAS_TRY_CATCH, THROW. by destruct (THROW_branch tc). Qed.

Lemma THROW_recoverable {A} tc e :
  recoverable (@THROW A tc e) = CPP_HAS_TRY_CATCH tc.
Proof. unfold CPP_HAS_TRY_CATCH, THROW. by destruct (THROW_branch tc). Qed.

Lemma THROW_returns {A} tc e : returns (@THROW A tc e) = false.
Proof. unfold THROW. by destruct (THROW_branch tc). Qed.

Lemma THROW_faulted {A} tc e : faulted (@THROW A tc e) = false.
Proof. unfold THROW. by destruct (THROW_branch tc). Qed.

Lemma THROW_bind {A B} tc e (k : A → outcome B) :
  (THROW tc e ≫= k) = THROW tc e.
Proof. unfold THROW. by destruct (THROW_branch tc). Qed.

Lemma errorno_sliced e : errorno (sliced e) = errorno e.
Proof. done. Qed.

Example THROW_gxx_4_8 :
  @THROW unit (gxx 4 8) (NCursesMenuException_err 64 (-1))
  = Throw (NCursesException_ "menu library error" (-1)).
Proof. reflexivity. Qed.

Example THROW_gxx_11 :
  @THROW unit (gxx 11 2) (NCursesMenuException_err 64 (-1)) = Exit EXIT_FAILURE.
Proof. reflexivity. Qed.

Example THROW_gxx_no_exceptions :
  @THROW unit (gxx_no_exceptions 11 2) (NCursesMenuException_err 64 (-1)) = Exit exit_0.
Proof. reflexivity. Qed.

Lemma THROW_gxx_7 {A} major minor e :
  7 ≤ major → @THROW A (gxx major minor) e = Exit EXIT_FAILURE.
Proof.
  intros Hm. unfold THROW, THROW_branch. simpl.
  destruct (major <=? 2) eqn:H2; [lia|]. simpl.
  destruct (major >=? 7) eqn:H7; [done | lia].
Qed.

(** What a call that ends in [THROW] with the error number [err] does. *)
Lemma THROW_outcome {A} tc e err (r : outcome A) :
  errorno e = err → r = THROW tc e →
  returns r = false
  ∧ faulted r = false
  ∧ recoverable r = CPP_HAS_TRY_CATCH tc
  ∧ (CPP_HAS_TRY_CATCH tc = true → ∃ e', r = Throw e' ∧ errorno e' = err)
  ∧ (∀ major minor, tc = gxx major minor → 7 ≤ major → r = Exit EXIT_FAILURE).
Proof.
  intros He ->. rewrite THROW_returns, THROW_faulted, THROW_recoverable.
  split; [done|]. split; [done|]. split; [done|]. split.
  - intros Htc. exists (sliced e). by rewrite THROW_try_catch, errorno_sliced.
  - intros major minor -> Hm. by apply THROW_gxx_7.
Qed.

(** ** The decoration guard *)

Section DecorationGuard.
Context `{EtiCodes} {W : Type} `{NCursesPanel.Decorations W}.
Hypothesis system_error_is_an_error : E_SYSTEM_ERROR ≠ E_OK.

Lemma NCursesMenu_OnError_system_error {A} tc o (k : unit → outcome A) :
  (NCursesMenu.OnError tc o E_SYSTEM_ERROR ≫= k)
  = THROW tc (NCursesMenuException_err (NCursesMenu.this o) E_SYSTEM_ERROR).
Proof.
  unfold NCursesMenu.OnError. case_decide; [done|]. apply THROW_bind.
Qed.

Lemma NCursesForm_OnError_system_error {A} tc o (k : unit → outcome A) :
  (NCursesForm.OnError tc o E_SYSTEM_ERROR ≫= k)
  = THROW tc (NCursesFormException_err NULL E_SYSTEM_ERROR).
Proof.
  unfold NCursesForm.OnError. case_decide; [done|]. apply THROW_bind.
Qed.

(** An unframed menu or form hands an exception with [E_SYSTEM_ERROR] to
    [THROW]; a framed one calls the base operation. *)
Lemma decorate_cases tc d o b title btitle (w : W) :
  framed_flag o = Some b →
  if b then decorate tc d o title btitle w
            = base_decoration d (panel_of o) title btitle w
  else ∃ e, errorno e = E_SYSTEM_ERROR
            ∧ decorate tc d o title btitle w = THROW tc e.
Proof.
  destruct o as [p|m|f]; simpl; [done| |]; intros [= <-].
  - destruct (NCursesMenu.b_framed m) eqn:Hb.
    + destruct d; simpl; unfold NCursesMenu.frame, NCursesMenu.boldframe,
        NCursesMenu.label; by rewrite Hb.
    + eexists (NCursesMenuException_err _ E_SYSTEM_ERROR). split; [done|].
      destruct d; simpl; unfold NCursesMenu.frame, NCursesMenu.boldframe,
        NCursesMenu.label; rewrite Hb; apply NCursesMenu_OnError_system_error.
  - destruct (NCursesForm.b_framed f) eqn:Hb.
    + destruct d; simpl; unfold NCursesForm.frame, NCursesForm.boldframe,
        NCursesForm.label; by rewrite Hb.
    + eexists (NCursesFormException_err _ E_SYSTEM_ERROR). split; [done|].
      destruct d; simpl; unfold NCursesForm.frame, NCursesForm.boldframe,
        NCursesForm.label; rewrite Hb; apply NCursesForm_OnError_system_error.
Qed.
End DecorationGuard.

(** C1, as amended.  NCursesMenu and NCursesForm are the classes that carry
    a framed flag (NCursesPanel declares none).  When the flag is set,
    [frame], [boldframe] and [label] are the base operation of NCursesPanel.
    When it is not set, they hand an exception whose error number is
    [E_SYSTEM_ERROR] to [THROW]: the call does not return and neither fails an
    assertion nor runs into undefined behaviour; it is an exception the
    application can catch exactly when [THROW] is compiled with try/catch
    support ([CPP_HAS_TRY_CATCH]), and then the exception thrown carries
    [E_SYSTEM_ERROR]; compiled with g++ 7 or later, the call ends the process
    with [exit(EXIT_FAILURE)]. *)
Theorem decoration_guard `{EtiCodes} {W : Type} `{NCursesPanel.Decorations W}
    tc d o (b : bool) title btitle (w : W) :
  E_SYSTEM_ERROR ≠ E_OK →
  framed_flag o = Some b →
  let r := decorate tc d o title btitle w in
  if b then r = base_decoration d (panel_of o) title btitle w
  else returns r = false
       ∧ faulted r = false
       ∧ recoverable r = CPP_HAS_TRY_CATCH tc
       ∧ (CPP_HAS_TRY_CATCH tc = true →
          ∃ e, r = Throw e ∧ errorno e = E_SYSTEM_ERROR)
       ∧ (∀ major minor, tc = gxx major minor → 7 ≤ major →
          r = Exit EXIT_FAILURE).
Proof.
  intros Hne Hflag r. subst r.
  pose proof (decorate_cases Hne tc d o b title btitle w Hflag) as Hc.
  destruct b; [done|]. destruct Hc as (e & He & Hr).
  by apply (THROW_outcome tc e).
Qed.

(** With a compiler for which [THROW] throws, the unframed menu raises. *)
Lemma decoration_guard_witness :
  ∃ e, @decorate eti_codes unit plain_decorations (gxx 4 8) d_frame
         (AMenu (NCursesMenu.internal (NCursesPanel.mk 4096 8192))) None None tt
       = Throw e ∧ errorno e = -1.
Proof.
  pose proof (@decoration_guard eti_codes unit plain_decorations (gxx 4 8) d_frame
    (AMenu (NCursesMenu.internal (NCursesPanel.mk 4096 8192))) false None None tt)
    as Hg.
  simpl in Hg. destruct Hg as (_ & _ & _ & Ht & _); [done | done |].
  exact (Ht eq_refl).
Defined.

(** C1, as stated, fails: compiled with g++ 11, [frame] on a menu built
    without frame space ends the process with [exit(EXIT_FAILURE)]; nothing
    is raised that the application could catch. *)
Lemma decoration_guard_exits_with_gxx_11 :
  framed_flag (AMenu (NCursesMenu.internal (NCursesPanel.mk 4096 8192))) = Some false
  ∧ @decorate eti_codes unit plain_decorations (gxx 11 2) d_frame
      (AMenu (NCursesMenu.internal (NCursesPanel.mk 4096 8192))) None None tt
    = Exit EXIT_FAILURE
  ∧ ¬ ∃ e, @decorate eti_codes unit plain_decorations (gxx 11 2) d_frame
             (AMenu (NCursesMenu.internal (NCursesPanel.mk 4096 8192))) None None tt
           = Throw e.
Proof.
  split; [done|]. split; [reflexivity|]. intros [e He]. discriminate He.
Qed.

(** ** The identity hook *)

Lemma deref_Some heap a hook : heap !! a = Some hook → deref heap a = Ret hook.
Proof. unfold deref. by intros ->. Qed.

Lemma NCursesMenu_getHook_null lib heap m :
  curses.menu_userptr lib m = NULL → NCursesMenu.getHook lib heap m = Abort.
Proof. unfold NCursesMenu.getHook. intros ->. by rewrite decide_True. Qed.

Lemma NCursesMenu_getHook_hook lib heap m hook :
  curses.menu_userptr lib m ≠ NULL →
  heap !! curses.menu_userptr lib m = Some hook →
  NCursesMenu.getHook lib heap m
  = if decide (m_owner hook = m) then Ret (m_back hook) else Abort.
Proof.
  intros Hnn Hh. unfold NCursesMenu.getHook.
  rewrite decide_False by done. by rewrite (deref_Some _ _ _ Hh).
Qed.

Lemma NCursesForm_getHook_null lib heap f :
  curses.form_userptr lib f = NULL → NCursesForm.getHook lib heap f = Abort.
Proof. unfold NCursesForm.getHook. intros ->. by rewrite decide_True. Qed.

Lemma NCursesForm_getHook_hook lib heap f hook :
  curses.form_userptr lib f ≠ NULL →
  heap !! curses.form_userptr lib f = Some hook →
  NCursesForm.getHook lib heap f
  = if decide (m_owner hook = f) then Ret (m_back hook) else Abort.
Proof.
  intros Hnn Hh. unfold NCursesForm.getHook.
  rewrite decide_False by done. by rewrite (deref_Some _ _ _ Hh).
Qed.

(** C2.  [getHook] on a MENU* or a FORM*: when the user-data slot of the
    handle is null, or holds a hook whose owner is not the handle, the
    assertion fails and the call aborts (it neither returns nor throws); when
    the hook's owner is the handle, the call returns the hook's back
    pointer. *)
Theorem getHook_resolves lib heap (h : ptr) :
  (curses.menu_userptr lib h = NULL → NCursesMenu.getHook lib heap h = Abort)
  ∧ (∀ hook, curses.menu_userptr lib h ≠ NULL →
       heap !! curses.menu_userptr lib h = Some hook →
       (m_owner hook ≠ h → NCursesMenu.getHook lib heap h = Abort)
       ∧ (m_owner hook = h → NCursesMenu.getHook lib heap h = Ret (m_back hook)))
  ∧ (curses.form_userptr lib h = NULL → NCursesForm.getHook lib heap h = Abort)
  ∧ (∀ hook, curses.form_userptr lib h ≠ NULL →
       heap !! curses.form_userptr lib h = Some hook →
       (m_owner hook ≠ h → NCursesForm.getHook lib heap h = Abort)
       ∧ (m_owner hook = h → NCursesForm.getHook lib heap h = Ret (m_back hook))).
Proof.
  split; [apply NCursesMenu_getHook_null|].
  split.
  { intros hook Hnn Hh. rewrite (NCursesMenu_getHook_hook _ _ _ _ Hnn Hh).
    split; intros Ho; [by rewrite decide_False | by rewrite decide_True]. }
  split; [apply NCursesForm_getHook_null|].
  intros hook Hnn Hh. rewrite (NCursesForm_getHook_hook _ _ _ _ Hnn Hh).
  split; intros Ho; [by rewrite decide_False | by rewrite decide_True].
Qed.

(** The menu at 4096 is hooked to the wrapper at 640; the hook at 512 of
    another handle is refused. *)
Lemma getHook_resolves_witness :
  NCursesMenu.getHook (hooked_library 4096 256)
    {[ 256 := {| m_user := 0; m_back := 640; m_owner := 4096 |} ]} 4096 = Ret 640
  ∧ NCursesMenu.getHook (hooked_library 4096 512)
      {[ 512 := {| m_user := 0; m_back := 640; m_owner := 8192 |} ]} 4096 = Abort.
Proof.
  split.
  - destruct (getHook_resolves (hooked_library 4096 256)
      {[ 256 := {| m_user := 0; m_back := 640; m_owner := 4096 |} ]} 4096)
      as (_ & Hm & _).
    destruct (Hm {| m_user := 0; m_back := 640; m_owner := 4096 |}) as [_ Hr];
      [done | done |]. exact (Hr eq_refl).
  - destruct (getHook_resolves (hooked_library 4096 512)
      {[ 512 := {| m_user := 0; m_back := 640; m_owner := 8192 |} ]} 4096)
      as (_ & Hm & _).
    destruct (Hm {| m_user := 0; m_back := 640; m_owner := 8192 |}) as [Hr _];
      [done | done |]. apply Hr. done.
Defined.

(** ** The user pointer of a panel *)

Lemma NCursesPanel_user_null lib o user heap :
  NCursesPanel.UserPointer lib o = NULL →
  NCursesPanel.get_user lib o heap = Ret NULL
  ∧ NCursesPanel.set_user lib o user heap = Ret heap.
Proof.
  intros Hn. unfold NCursesPanel.get_user, NCursesPanel.set_user.
  by destruct (decide (NCursesPanel.UserPointer lib o = NULL)).
Qed.

Lemma NCursesPanel_user_hook lib o user heap hook :
  NCursesPanel.UserPointer lib o ≠ NULL →
  heap !! NCursesPanel.UserPointer lib o = Some hook →
  NCursesPanel.get_user lib o heap
  = Ret (if decide (m_back hook = NCursesPanel.this o ∧ m_owner hook = NCursesPanel.p o)
         then m_user hook else NULL)
  ∧ NCursesPanel.set_user lib o user heap
    = Ret (if decide (m_back hook = NCursesPanel.this o ∧ m_owner hook = NCursesPanel.p o)
           then <[NCursesPanel.UserPointer lib o := set_m_user user hook]> heap
           else heap).
Proof.
  intros Hnn Hh. unfold NCursesPanel.get_user, NCursesPanel.set_user.
  destruct (decide (NCursesPanel.UserPointer lib o = NULL)); [done|].
  rewrite (deref_Some _ _ _ Hh).
  unfold mbind, outcome_mbind, outcome_bind.
  by destruct (decide (m_back hook = NCursesPanel.this o ∧ m_owner hook = NCursesPanel.p o)).
Qed.

(** C10.  [get_user] and [set_user] of an NCursesPanel.  When the user-data
    slot of the panel is null, or holds a hook whose back pointer is not
    this object or whose owner is not this object's panel, [get_user]
    returns the null pointer and [set_user] returns with the heap as it was:
    neither aborts nor throws.  When the hook matches, [get_user] returns the
    hook's user pointer and [set_user] stores the new user pointer in the
    hook, keeping its back pointer and owner and every other hook. *)
Theorem panel_user_pointer lib (o : NCursesPanel.t) (user : ptr)
    (heap : gmap Z UserHook) :
  (NCursesPanel.UserPointer lib o = NULL →
     NCursesPanel.get_user lib o heap = Ret NULL
     ∧ NCursesPanel.set_user lib o user heap = Ret heap)
  ∧ (∀ hook, NCursesPanel.UserPointer lib o ≠ NULL →
       heap !! NCursesPanel.UserPointer lib o = Some hook →
       (m_back hook ≠ NCursesPanel.this o ∨ m_owner hook ≠ NCursesPanel.p o →
          NCursesPanel.get_user lib o heap = Ret NULL
          ∧ NCursesPanel.set_user lib o user heap = Ret heap)
       ∧ (m_back hook = NCursesPanel.this o → m_owner hook = NCursesPanel.p o →
          NCursesPanel.get_user lib o heap = Ret (m_user hook)
          ∧ NCursesPanel.set_user lib o user heap
            = Ret (<[NCursesPanel.UserPointer lib o :=
                      {| m_user := user; m_back := m_back hook;
                         m_owner := m_owner hook |}]> heap))).
Proof.
  split; [apply NCursesPanel_user_null|].
  intros hook Hnn Hh.
  destruct (NCursesPanel_user_hook lib o user heap hook Hnn Hh) as [-> ->].
  split.
  - intros Hne. rewrite !decide_False; [done| |]; intros [??]; by destruct Hne.
  - intros Hb Ho. by rewrite !decide_True.
Qed.

(** The panel at 4096 of the wrapper at 640, hooked at 256: the user
    pointer 7 is read, and replaced by 9. *)
Lemma panel_user_pointer_witness :
  NCursesPanel.get_user (hooked_library 4096 256) (NCursesPanel.mk 640 4096)
    {[ 256 := {| m_user := 7; m_back := 640; m_owner := 4096 |} ]} = Ret 7
  ∧ NCursesPanel.set_user (hooked_library 4096 256) (NCursesPanel.mk 640 4096) 9
      {[ 256 := {| m_user := 7; m_back := 640; m_owner := 4096 |} ]}
    = Ret (<[ 256 := {| m_user := 9; m_back := 640; m_owner := 4096 |} ]>
             {[ 256 := {| m_user := 7; m_back := 640; m_owner := 4096 |} ]}).
Proof.
  destruct (panel_user_pointer (hooked_library 4096 256)
    (NCursesPanel.mk 640 4096) 9
    {[ 256 := {| m_user := 7; m_back := 640; m_owner := 4096 |} ]}) as [_ Hh].
  destruct (Hh {| m_user := 7; m_back := 640; m_owner := 4096 |}) as [_ Hr];
    [done | done |]. exact (Hr eq_refl eq_refl).
Defined.

(** A hook that belongs to another wrapper: nothing is read, nothing is
    written, and both calls return. *)
Example panel_user_pointer_foreign :
  NCursesPanel.get_user (hooked_library 4096 256) (NCursesPanel.mk 640 4096)
    {[ 256 := {| m_user := 7; m_back := 1280; m_owner := 4096 |} ]} = Ret NULL
  ∧ NCursesPanel.set_user (hooked_library 4096 256) (NCursesPanel.mk 640 4096) 9
      {[ 256 := {| m_user := 7; m_back := 1280; m_owner := 4096 |} ]}
    = Ret {[ 256 := {| m_user := 7; m_back := 1280; m_owner := 4096 |} ]}.
Proof. split; reflexivity. Qed.

(** The same hook under a menu: the assertion of NCursesMenu::get_user
    fails. *)
Example menu_get_user_foreign :
  NCursesMenu.get_user (hooked_library 4096 256)
    {| NCursesMenu.base := NCursesPanel.mk 640 2048; NCursesMenu.menu := 4096;
       NCursesMenu.sub := NULL; NCursesMenu.b_sub_owner := false;
       NCursesMenu.b_framed := false; NCursesMenu.b_autoDelete := false;
       NCursesMenu.my_items := [] |}
    {[ 256 := {| m_user := 7; m_back := 1280; m_owner := 4096 |} ]} = Abort.
Proof. reflexivity. Qed.

(** ** operator[] *)

Lemma array_read_lookup {A} (a : list A) (i : Z) (x : A) :
  0 ≤ i → a !! Z.to_nat i = Some x → array_read a i = Ret x.
Proof.
  intros Hi Hx. unfold array_read.
  destruct (i <? 0) eqn:Hlt; [lia|]. by rewrite Hx.
Qed.

Lemma array_read_nat {A} (a : list A) (k : nat) (x : A) :
  a !! k = Some x → array_read a (Z.of_nat k) = Ret x.
Proof.
  intros Hx. apply array_read_lookup; [lia|]. by rewrite Nat2Z.id.
Qed.

Section Subscript.
Context `{EtiCodes}.
Hypothesis bad_argument_is_an_error : E_BAD_ARGUMENT ≠ E_OK.

Lemma NCursesMenu_subscript_outside tc lib o i :
  i < 0 ∨ curses.item_count lib (NCursesMenu.menu o) ≤ i →
  NCursesMenu.operator_subscript tc lib o i
  = THROW tc (NCursesMenuException_err (NCursesMenu.this o) E_BAD_ARGUMENT).
Proof.
  intros Hi. unfold NCursesMenu.operator_subscript.
  replace ((i <? 0) || (i >=? curses.item_count lib (NCursesMenu.menu o)))
    with true by (symmetry; apply orb_true_iff; lia).
  unfold NCursesMenu.OnError. rewrite decide_False by done. apply THROW_bind.
Qed.

Lemma NCursesMenu_subscript_inside tc lib o i w :
  0 ≤ i < curses.item_count lib (NCursesMenu.menu o) →
  NCursesMenu.my_items o !! Z.to_nat i = Some w →
  NCursesMenu.operator_subscript tc lib o i = Ret w.
Proof.
  intros Hi Hw. unfold NCursesMenu.operator_subscript.
  replace ((i <? 0) || (i >=? curses.item_count lib (NCursesMenu.menu o)))
    with false by (symmetry; apply orb_false_iff; lia).
  simpl. apply array_read_lookup; [lia | done].
Qed.

Lemma NCursesForm_subscript_outside tc lib o i :
  i < 0 ∨ curses.field_count lib (NCursesForm.form o) ≤ i →
  NCursesForm.operator_subscript tc lib o i
  = THROW tc (NCursesFormException_err NULL E_BAD_ARGUMENT).
Proof.
  intros Hi. unfold NCursesForm.operator_subscript.
  replace ((i <? 0) || (i >=? curses.field_count lib (NCursesForm.form o)))
    with true by (symmetry; apply orb_true_iff; lia).
  unfold NCursesForm.OnError. rewrite decide_False by done. apply THROW_bind.
Qed.

Lemma NCursesForm_subscript_inside tc lib o i w :
  0 ≤ i < curses.field_count lib (NCursesForm.form o) →
  NCursesForm.my_fields o !! Z.to_nat i = Some w →
  NCursesForm.operator_subscript tc lib o i = Ret w.
Proof.
  intros Hi Hw. unfold NCursesForm.operator_subscript.
  replace ((i <? 0) || (i >=? curses.field_count lib (NCursesForm.form o)))
    with false by (symmetry; apply orb_false_iff; lia).
  simpl. apply array_read_lookup; [lia | done].
Qed.
End Subscript.

(** C7, as amended.  [operator[](i)] of a menu and of a form.  For [i < 0]
    or [i] at or beyond the count the library reports, the call hands an
    exception whose error number is [E_BAD_ARGUMENT] to [THROW] before the
    array is read: it does not return and neither fails an assertion nor
    reads outside the array; it is an exception the application can catch
    exactly when [THROW] is compiled with try/catch support, and then the
    exception thrown carries [E_BAD_ARGUMENT]; compiled with g++ 7 or later,
    the call ends the process with [exit(EXIT_FAILURE)].  For [i] within the
    range, the call returns the [i]-th wrapper of the array. *)
Theorem operator_subscript_range `{EtiCodes} tc lib
    (m : NCursesMenu.t) (f : NCursesForm.t) (i : Z) :
  E_BAD_ARGUMENT ≠ E_OK →
  (i < 0 ∨ curses.item_count lib (NCursesMenu.menu m) ≤ i →
     returns (NCursesMenu.operator_subscript tc lib m i) = false
     ∧ faulted (NCursesMenu.operator_subscript tc lib m i) = false
     ∧ recoverable (NCursesMenu.operator_subscript tc lib m i) = CPP_HAS_TRY_CATCH tc
     ∧ (CPP_HAS_TRY_CATCH tc = true →
        ∃ e, NCursesMenu.operator_subscript tc lib m i = Throw e
             ∧ errorno e = E_BAD_ARGUMENT)
     ∧ (∀ major minor, tc = gxx major minor → 7 ≤ major →
        NCursesMenu.operator_subscript tc lib m i = Exit EXIT_FAILURE))
  ∧ (0 ≤ i < curses.item_count lib (NCursesMenu.menu m) →
     ∀ w, NCursesMenu.my_items m !! Z.to_nat i = Some w →
          NCursesMenu.operator_subscript tc lib m i = Ret w)
  ∧ (i < 0 ∨ curses.field_count lib (NCursesForm.form f) ≤ i →
     returns (NCursesForm.operator_subscript tc lib f i) = false
     ∧ faulted (NCursesForm.operator_subscript tc lib f i) = false
     ∧ recoverable (NCursesForm.operator_subscript tc lib f i) = CPP_HAS_TRY_CATCH tc
     ∧ (CPP_HAS_TRY_CATCH tc = true →
        ∃ e, NCursesForm.operator_subscript tc lib f i = Throw e
             ∧ errorno e = E_BAD_ARGUMENT)
     ∧ (∀ major minor, tc = gxx major minor → 7 ≤ major →
        NCursesForm.operator_subscript tc lib f i = Exit EXIT_FAILURE))
  ∧ (0 ≤ i < curses.field_count lib (NCursesForm.form f) →
     ∀ w, NCursesForm.my_fields f !! Z.to_nat i = Some w →
          NCursesForm.operator_subscript tc lib f i = Ret w).
Proof.
  intros Hne. split; [|split; [|split]].
  - intros Hi. eapply THROW_outcome; [|by apply NCursesMenu_subscript_outside].
    done.
  - intros Hi w Hw. by apply NCursesMenu_subscript_inside.
  - intros Hi. eapply THROW_outcome; [|by apply NCursesForm_subscript_outside].
    done.
  - intros Hi w Hw. by apply NCursesForm_subscript_inside.
Qed.

(** The menu of three items: index 1 is its second item; index 3 is
    refused, by an exception with g++ 4.8. *)
Lemma operator_subscript_range_witness :
  @NCursesMenu.operator_subscript eti_codes (gxx 4 8) three_items_library
     three_items_menu 1 = Ret (NCursesMenuItem.mk 20 120)
  ∧ ∃ e, @NCursesMenu.operator_subscript eti_codes (gxx 4 8) three_items_library
           three_items_menu 3 = Throw e
         ∧ errorno e = -2.
Proof.
  split.
  - destruct (@operator_subscript_range eti_codes (gxx 4 8) three_items_library
      three_items_menu (NCursesForm.internal (NCursesPanel.mk 0 0)) 1)
      as (_ & Hin & _); [done|].
    apply Hin; [done | reflexivity].
  - destruct (@operator_subscript_range eti_codes (gxx 4 8) three_items_library
      three_items_menu (NCursesForm.internal (NCursesPanel.mk 0 0)) 3)
      as (Hout & _); [done|].
    destruct Hout as (_ & _ & _ & Ht & _); [right; done|].
    exact (Ht eq_refl).
Defined.

(** C7, as stated, fails: compiled with g++ 11, [operator[](3)] on a menu
    of three items ends the process with [exit(EXIT_FAILURE)]; no
    bad-argument error is raised that the application could catch. *)
Lemma operator_subscript_exits_with_gxx_11 :
  curses.item_count three_items_library (NCursesMenu.menu three_items_menu) ≤ 3
  ∧ @NCursesMenu.operator_subscript eti_codes (gxx 11 2) three_items_library
      three_items_menu 3 = Exit EXIT_FAILURE
  ∧ ¬ ∃ e, @NCursesMenu.operator_subscript eti_codes (gxx 11 2) three_items_library
             three_items_menu 3 = Throw e.
Proof.
  split; [done|]. split; [reflexivity|]. intros [e He]. discriminate He.
Qed.

(** ** Index sync of a child collection *)

Lemma THROW_not_Ret {A} tc e (a : A) : THROW tc e ≠ Ret a.
Proof. intros Heq. pose proof (THROW_returns (A:=A) tc e) as Hr. by rewrite Heq in Hr. Qed.

Lemma NCursesMenu_handles_children nitems raw :
  NCursesMenu.handles nitems = Ret raw →
  raw = NCursesMenuItem.item <$> NCursesMenu.children nitems.
Proof.
  revert raw. induction nitems as [|x rest IH]; intros raw; simpl; [done|].
  case_decide; [by intros [= <-]|].
  destruct (NCursesMenu.handles rest) as [raw'| | | | |]; simpl; try done.
  intros [= <-]. by rewrite (IH raw').
Qed.

Lemma NCursesMenu_children_lookup nitems (i : nat) w :
  NCursesMenu.children nitems !! i = Some w → nitems !! i = Some w.
Proof.
  revert i. induction nitems as [|x rest IH]; intros i; simpl; [done|].
  case_decide; [done|]. destruct i as [|i]; simpl; [done|]. apply IH.
Qed.

Lemma NCursesForm_handles_children nfields raw :
  NCursesForm.handles nfields = Ret raw →
  raw = NCursesFormField.field <$> NCursesForm.children nfields.
Proof.
  revert raw. induction nfields as [|x rest IH]; intros raw; simpl; [done|].
  case_decide; [by intros [= <-]|].
  destruct (NCursesForm.handles rest) as [raw'| | | | |]; simpl; try done.
  intros [= <-]. by rewrite (IH raw').
Qed.

Lemma NCursesForm_children_lookup nfields (i : nat) w :
  NCursesForm.children nfields !! i = Some w → nfields !! i = Some w.
Proof.
  revert i. induction nfields as [|x rest IH]; intros i; simpl; [done|].
  case_decide; [done|]. destruct i as [|i]; simpl; [done|]. apply IH.
Qed.

Section IndexSync.
Context `{Connect}.

(** A successful [setItems]: the library accepted the handles of the
    children, and the wrapper array is the one given. *)
Lemma NCursesMenu_setItems_Ret tc lib o Items o' lib' :
  NCursesMenu.setItems tc lib o Items = Ret (o', lib') →
  NCursesMenu.my_items o' = Items
  ∧ NCursesMenu.menu o' = NCursesMenu.menu o
  ∧ set_menu_items lib (NCursesMenu.menu o)
      (NCursesMenuItem.item <$> NCursesMenu.children Items) = (E_OK, lib').
Proof.
  unfold NCursesMenu.setItems, NCursesMenu.mapItems.
  destruct (NCursesMenu.handles Items) as [raw| | | | |] eqn:Hraw; simpl; try done.
  apply NCursesMenu_handles_children in Hraw as ->.
  destruct (set_menu_items _ _ _) as [err lib1] eqn:Hset.
  unfold NCursesMenu.OnError. case_decide as Herr; simpl.
  - intros [= <- <-]. by rewrite <- Herr.
  - rewrite THROW_bind. intros Ht. by apply THROW_not_Ret in Ht.
Qed.

Lemma NCursesMenu_setItems_sync tc lib o Items o' lib' :
  NCursesMenu.setItems tc lib o Items = Ret (o', lib') →
  NCursesMenu.my_items o' = Items ∧ NCursesMenu.index_sync lib' o'.
Proof.
  intros Hs. apply NCursesMenu_setItems_Ret in Hs as (Hitems & _ & Hset).
  split; [done|]. intros i w Hw. rewrite Hitems in Hw.
  apply (set_menu_items_index _ _ _ _ Hset i). by rewrite list_lookup_fmap, Hw.
Qed.

Lemma NCursesMenu_current_item_sync lib o (k : nat) w :
  NCursesMenu.index_sync lib o →
  NCursesMenu.children (NCursesMenu.my_items o) !! k = Some w →
  curses.current_item lib (NCursesMenu.menu o) = NCursesMenuItem.item w →
  NCursesMenu.current_item lib o = Ret w.
Proof.
  intros Hsync Hw Hcur. unfold NCursesMenu.current_item.
  rewrite Hcur, (Hsync k w Hw). apply array_read_nat.
  by apply NCursesMenu_children_lookup.
Qed.

Lemma NCursesForm_setFields_Ret tc lib o Fields o' lib' :
  NCursesForm.setFields tc lib o Fields = Ret (o', lib') →
  NCursesForm.my_fields o' = Fields
  ∧ NCursesForm.form o' = NCursesForm.form o
  ∧ set_form_fields lib (NCursesForm.form o)
      (NCursesFormField.field <$> NCursesForm.children Fields) = (E_OK, lib').
Proof.
  unfold NCursesForm.setFields, NCursesForm.mapFields.
  destruct (NCursesForm.handles Fields) as [raw| | | | |] eqn:Hraw; simpl; try done.
  apply NCursesForm_handles_children in Hraw as ->.
  destruct (set_form_fields _ _ _) as [err lib1] eqn:Hset.
  unfold NCursesForm.OnError. case_decide as Herr; simpl.
  - intros [= <- <-]. by rewrite <- Herr.
  - rewrite THROW_bind. intros Ht. by apply THROW_not_Ret in Ht.
Qed.

Lemma NCursesForm_setFields_sync tc lib o Fields o' lib' :
  NCursesForm.setFields tc lib o Fields = Ret (o', lib') →
  NCursesForm.my_fields o' = Fields ∧ NCursesForm.index_sync lib' o'.
Proof.
  intros Hs. apply NCursesForm_setFields_Ret in Hs as (Hfields & _ & Hset).
  split; [done|]. intros i w Hw. rewrite Hfields in Hw.
  apply (set_form_fields_index _ _ _ _ Hset i). by rewrite list_lookup_fmap, Hw.
Qed.

Lemma NCursesForm_current_field_sync lib o (k : nat) w :
  NCursesForm.index_sync lib o →
  NCursesForm.children (NCursesForm.my_fields o) !! k = Some w →
  curses.current_field lib (NCursesForm.form o) = NCursesFormField.field w →
  NCursesForm.current_field lib o = Ret w.
Proof.
  intros Hsync Hw Hcur. unfold NCursesForm.current_field.
  rewrite Hcur, (Hsync k w Hw). apply array_read_nat.
  by apply NCursesForm_children_lookup.
Qed.
End IndexSync.

(** C3.  After [setItems] (of a menu) or [setFields] (of a form) has
    returned, the wrapper array is the array given and, for every position
    [i] of a child in it, the index the library reports for the handle of the
    [i]-th child is [i].  Whenever a menu or form is in this index sync and
    the library's current handle is the handle of the child [w] of the
    collection, [current_item()] (or [current_field()]) returns [w]. *)
Theorem index_sync_current `{Connect} tc :
  (∀ lib m Items m' lib',
     NCursesMenu.setItems tc lib m Items = Ret (m', lib') →
     NCursesMenu.my_items m' = Items
     ∧ ∀ (i : nat) w, NCursesMenu.children Items !! i = Some w →
         curses.item_index lib' (NCursesMenuItem.item w) = Z.of_nat i)
  ∧ (∀ lib m (k : nat) w,
       NCursesMenu.index_sync lib m →
       NCursesMenu.children (NCursesMenu.my_items m) !! k = Some w →
       curses.current_item lib (NCursesMenu.menu m) = NCursesMenuItem.item w →
       NCursesMenu.current_item lib m = Ret w)
  ∧ (∀ lib f Fields f' lib',
       NCursesForm.setFields tc lib f Fields = Ret (f', lib') →
       NCursesForm.my_fields f' = Fields
       ∧ ∀ (i : nat) w, NCursesForm.children Fields !! i = Some w →
           curses.field_index lib' (NCursesFormField.field w) = Z.of_nat i)
  ∧ (∀ lib f (k : nat) w,
       NCursesForm.index_sync lib f →
       NCursesForm.children (NCursesForm.my_fields f) !! k = Some w →
       curses.current_field lib (NCursesForm.form f) = NCursesFormField.field w →
       NCursesForm.current_field lib f = Ret w).
Proof.
  split; [|split; [|split]].
  - intros lib m Items m' lib' Hs.
    destruct (NCursesMenu_setItems_sync _ _ _ _ _ _ Hs) as [Hitems Hsync].
    split; [done|]. intros i w Hw. apply Hsync. by rewrite Hitems.
  - intros lib m k w. apply NCursesMenu_current_item_sync.
  - intros lib f Fields f' lib' Hs.
    destruct (NCursesForm_setFields_sync _ _ _ _ _ _ Hs) as [Hfields Hsync].
    split; [done|]. intros i w Hw. apply Hsync. by rewrite Hfields.
  - intros lib f k w. apply NCursesForm_current_field_sync.
Qed.

(** *** A library that connects by position *)

Lemma index_of_lookup (l : list Z) (i : nat) (h : Z) :
  NoDup l → l !! i = Some h → index_of h l = Some i.
Proof.
  revert i. induction l as [|x l IH]; intros i Hnd Hl; [done|].
  apply NoDup_cons in Hnd as [Hx Hnd]. simpl.
  destruct i as [|i]; simpl in Hl.
  - injection Hl as ->. by rewrite decide_True.
  - rewrite decide_False.
    + by rewrite (IH i Hnd Hl).
    + intros ->. apply Hx. by eapply list_elem_of_lookup_2.
Qed.

Lemma connect_items_index lib m raw lib' :
  connect_items lib m raw = (@E_OK eti_codes, lib') →
  ∀ (i : nat) h, raw !! i = Some h → curses.item_index lib' h = Z.of_nat i.
Proof.
  unfold connect_items. case_bool_decide as Hnd; [|done].
  intros [= <-] i h Hi. simpl. by rewrite (index_of_lookup raw i h Hnd Hi).
Qed.

Lemma connect_fields_index lib f raw lib' :
  connect_fields lib f raw = (@E_OK eti_codes, lib') →
  ∀ (i : nat) h, raw !! i = Some h → curses.field_index lib' h = Z.of_nat i.
Proof.
  unfold connect_fields. case_bool_decide as Hnd; [|done].
  intros [= <-] i h Hi. simpl. by rewrite (index_of_lookup raw i h Hnd Hi).
Qed.

(** The library that connects by position meets the contract. *)
Definition positional_connect : @Connect eti_codes :=
  {| set_menu_items := connect_items;
     set_form_fields := connect_fields;
     set_menu_items_index := connect_items_index;
     set_form_fields_index := connect_fields_index |}.

(** Attaching "Alpha", "Beta", "Gamma" to the menu at 4096: the handle of
    "Gamma" gets index 2, and the current item is the wrapper of "Alpha",
    on which the library puts the selection. *)
Lemma index_sync_current_witness :
  ∃ m' lib',
    @NCursesMenu.setItems eti_codes positional_connect (gxx 4 8) quiet_library
      three_items_menu three_items = Ret (m', lib')
    ∧ curses.item_index lib' 130 = 2
    ∧ NCursesMenu.current_item lib' m' = Ret (NCursesMenuItem.mk 10 110).
Proof.
  destruct (@NCursesMenu.setItems eti_codes positional_connect (gxx 4 8)
    quiet_library three_items_menu three_items) as [[m' lib']| | | | |] eqn:Hs;
    try discriminate Hs.
  exists m', lib'. split; [reflexivity|].
  destruct (@index_sync_current eti_codes positional_connect (gxx 4 8))
    as (Hattach & Hcur & _).
  destruct (Hattach _ _ _ _ _ Hs) as [Hitems Hindex].
  split.
  - exact (Hindex 2%nat (NCursesMenuItem.mk 30 130) eq_refl).
  - apply (Hcur lib' m' 0%nat).
    + intros i w Hw. apply Hindex. by rewrite <- Hitems.
    + by rewrite Hitems.
    + injection Hs as <- <-. reflexivity.
Defined.

(** ** The SLK stack *)

Lemma pop_push K st : NCursesApplication.pop (NCursesApplication.push K st) = (true, st).
Proof. by destruct st. Qed.

Lemma top_push K st : NCursesApplication.top (NCursesApplication.push K st) = Some K.
Proof. done. Qed.

Lemma push_all_snoc l K st :
  NCursesApplication.push_all (l ++ [K]) st
  = NCursesApplication.push K (NCursesApplication.push_all l st).
Proof. unfold NCursesApplication.push_all. by rewrite foldl_app. Qed.

(** Popping as many sets as were pushed gives the stack back. *)
Lemma pop_n_push_all l st :
  NCursesApplication.pop_n (length l) (NCursesApplication.push_all l st) = st.
Proof.
  induction l as [|K l IH] using rev_ind; [done|].
  rewrite push_all_snoc, length_app, Nat.add_comm.
  change (NCursesApplication.pop_n (length l)
            (NCursesApplication.pop
               (NCursesApplication.push K (NCursesApplication.push_all l st))).2
          = st).
  by rewrite pop_push.
Qed.

(** C4.  The SLK stack is last-in first-out.  [push] makes the set the
    current one and records the stack as it was as the predecessor of the
    new link; [pop] on a stack with top link [L] removes that link only and
    makes [prev L] the stack; after [push(A); push(B); pop()] — and after
    [push(A)], any further pushes and as many pops — the stack is the one
    [push(A)] left and [top()] is [A]. *)
Theorem slk_stack_lifo (A B : ptr) (later : list ptr) (st : NCursesApplication.statics) :
  NCursesApplication.slk_stack (NCursesApplication.push A st)
  = Some (NCursesApplication.Build_SLK_Link (NCursesApplication.slk_stack st) A)
  ∧ NCursesApplication.top (NCursesApplication.push A st) = Some A
  ∧ (∀ L, NCursesApplication.slk_stack st = Some L →
       NCursesApplication.pop st
       = (true, {| NCursesApplication.slk_stack := NCursesApplication.prev L |}))
  ∧ NCursesApplication.pop
      (NCursesApplication.push B (NCursesApplication.push A st))
    = (true, NCursesApplication.push A st)
  ∧ NCursesApplication.top
      (snd (NCursesApplication.pop
              (NCursesApplication.push B (NCursesApplication.push A st))))
    = Some A
  ∧ NCursesApplication.top
      (NCursesApplication.pop_n (length later)
         (NCursesApplication.push_all later (NCursesApplication.push A st)))
    = Some A.
Proof.
  split; [done|]. split; [done|]. split.
  { intros L HL. unfold NCursesApplication.pop. by rewrite HL. }
  split; [apply pop_push|]. split.
  - by rewrite pop_push.
  - by rewrite pop_n_push_all.
Qed.

(** On a stack that holds the set 16, pushing 32 and popping leaves 16 on
    top; so do three more pushes followed by three pops. *)
Lemma slk_stack_lifo_witness :
  NCursesApplication.pop
    (NCursesApplication.push 48 (NCursesApplication.push 32
       (NCursesApplication.push 16 NCursesApplication.initial)))
  = (true, NCursesApplication.push 32
             (NCursesApplication.push 16 NCursesApplication.initial))
  ∧ NCursesApplication.top
      (NCursesApplication.pop_n 3
         (NCursesApplication.push_all [48; 64; 80]
            (NCursesApplication.push 32
               (NCursesApplication.push 16 NCursesApplication.initial))))
    = Some 32.
Proof.
  destruct (slk_stack_lifo 32 48 [48; 64; 80]
    (NCursesApplication.push 16 NCursesApplication.initial))
    as (_ & _ & _ & Hpop & _ & Hlater).
  split; [exact Hpop | exact Hlater].
Defined.

(** C5.  [pop] on an empty SLK stack — the initial one, or the one left
    after every pushed set has been popped — returns false and leaves the
    stack as it was, empty: [top()] is null. *)
Theorem pop_empty (pushed : list ptr) (st : NCursesApplication.statics) :
  NCursesApplication.slk_stack st = None →
  NCursesApplication.pop st = (false, st)
  ∧ NCursesApplication.top (snd (NCursesApplication.pop st)) = None
  ∧ NCursesApplication.pop
      (NCursesApplication.pop_n (length pushed)
         (NCursesApplication.push_all pushed st))
    = (false, st).
Proof.
  intros Hst.
  assert (NCursesApplication.pop st = (false, st)) as Hpop.
  { unfold NCursesApplication.pop. by rewrite Hst. }
  split; [done|]. split.
  - rewrite Hpop. unfold NCursesApplication.top. simpl. by rewrite Hst.
  - by rewrite pop_n_push_all.
Qed.

Lemma pop_empty_witness :
  NCursesApplication.pop NCursesApplication.initial
  = (false, NCursesApplication.initial)
  ∧ NCursesApplication.top
      (snd (NCursesApplication.pop NCursesApplication.initial)) = None
  ∧ NCursesApplication.pop
      (NCursesApplication.pop_n 2
         (NCursesApplication.push_all [16; 32] NCursesApplication.initial))
    = (false, NCursesApplication.initial).
Proof. exact (pop_empty [16; 32] NCursesApplication.initial eq_refl). Defined.

(** ** The layout of the key sets *)

Section Layout.
Context `{EtiCodes} (tc : Toolchain) (labels_of : Label_Layout.t → Z).

Lemma Error_not_Ret {A} msg (a : A) : Soft_Label_Key_Set.Error tc msg ≠ Ret a.
Proof. apply THROW_not_Ret. Qed.

Lemma construct_first fmt g s g' :
  Soft_Label_Key_Set.count g = 0 →
  Soft_Label_Key_Set.construct_with_layout tc labels_of fmt g = Ret (s, g') →
  Soft_Label_Key_Set.layout_fixed labels_of fmt g' ∧ s = Soft_Label_Key_Set.init (labels_of fmt).
Proof.
  intros Hc. unfold Soft_Label_Key_Set.construct_with_layout.
  case_decide as Hnone; [intros Hr; by apply Error_not_Ret in Hr|].
  rewrite decide_True by done. intros [= <- <-].
  split; [|done]. repeat split; simpl; try done; lia.
Qed.

Lemma construct_later fmt r g s g' :
  Soft_Label_Key_Set.layout_fixed labels_of fmt g →
  Soft_Label_Key_Set.construct tc labels_of r g = Ret (s, g') →
  Soft_Label_Key_Set.layout_fixed labels_of fmt g' ∧ s = Soft_Label_Key_Set.init (labels_of fmt).
Proof.
  intros (Hc & Hfmt & Hf & Hn). destruct r as [fmt'|]; simpl.
  - unfold Soft_Label_Key_Set.construct_with_layout.
    case_decide; [intros Hr; by apply Error_not_Ret in Hr|].
    rewrite decide_False by lia.
    case_decide; [|intros Hr; by apply Error_not_Ret in Hr].
    intros [= <- <-]. rewrite Hn. split; [|done].
    repeat split; simpl; try done; lia.
  - unfold Soft_Label_Key_Set.construct_default.
    rewrite decide_False by congruence.
    intros [= <- <-]. rewrite Hn. split; [|done].
    repeat split; simpl; try done; lia.
Qed.

Lemma constructions_fixed fmt rs g :
  Soft_Label_Key_Set.layout_fixed labels_of fmt g →
  Soft_Label_Key_Set.layout_fixed labels_of fmt (Soft_Label_Key_Set.constructions tc labels_of rs g).2
  ∧ ∀ r s, (r, s) ∈ (Soft_Label_Key_Set.constructions tc labels_of rs g).1 →
      s = Soft_Label_Key_Set.init (labels_of fmt).
Proof.
  revert g. induction rs as [|r rs IH]; intros g Hg; simpl.
  { split; [done|]. intros r s Hin. by apply elem_of_nil in Hin. }
  destruct (Soft_Label_Key_Set.construct tc labels_of r g)
    as [[s g']| | | | |] eqn:Hr; try by apply IH.
  destruct (construct_later fmt r g s g' Hg Hr) as [Hg' Hs].
  destruct (IH g' Hg') as [Hfix Hbuilt].
  destruct (Soft_Label_Key_Set.constructions tc labels_of rs g') as [built g''].
  simpl in *. split; [done|]. intros r0 s0 Hin.
  apply elem_of_cons in Hin as [[= _ ->]|Hin]; [done|]. by eapply Hbuilt.
Qed.
End Layout.

Lemma length_slk_array_init n :
  length (Soft_Label_Key_Set.slk_array (Soft_Label_Key_Set.init n)) = Z.to_nat n.
Proof. unfold Soft_Label_Key_Set.init. simpl. by rewrite length_fmap, length_seqZ. Qed.

(** C6.  The first key set ever constructed (no set was counted before)
    fixes the layout and the label count.  After any later constructions,
    by either constructor, returning or not, the layout and the label count
    are still those of the first set; every set built later — so every set
    built by the default constructor — has the key array of the first set:
    the same number of labels, numbered alike. *)
Theorem slk_layout_fixed_by_first `{EtiCodes} tc (labels_of : Label_Layout.t → Z)
    fmt g0 first g1 (later : list Soft_Label_Key_Set.request) :
  Soft_Label_Key_Set.count g0 = 0 →
  Soft_Label_Key_Set.construct_with_layout tc labels_of fmt g0 = Ret (first, g1) →
  Soft_Label_Key_Set.format g1 = fmt
  ∧ Soft_Label_Key_Set.labels g1 = labels_of fmt
  ∧ Soft_Label_Key_Set.format
      (Soft_Label_Key_Set.constructions tc labels_of later g1).2 = fmt
  ∧ Soft_Label_Key_Set.labels
      (Soft_Label_Key_Set.constructions tc labels_of later g1).2 = labels_of fmt
  ∧ ∀ s, (Soft_Label_Key_Set.by_default, s)
           ∈ (Soft_Label_Key_Set.constructions tc labels_of later g1).1 →
      s = first
      ∧ length (Soft_Label_Key_Set.slk_array s) = Z.to_nat (labels_of fmt).
Proof.
  intros Hc Hfirst.
  destruct (construct_first tc labels_of fmt g0 first g1 Hc Hfirst) as [Hg1 ->].
  destruct (constructions_fixed tc labels_of fmt later g1 Hg1)
    as [(_ & _ & Hf & Hn) Hbuilt].
  destruct Hg1 as (_ & _ & Hf1 & Hn1).
  unfold Soft_Label_Key_Set.labels.
  split; [done|]. split; [done|]. split; [done|]. split; [done|].
  intros s Hin. split; [by eapply Hbuilt|].
  rewrite (Hbuilt _ _ Hin). apply length_slk_array_init.
Qed.

(** The first set is built with the PC style layout of twelve labels; a
    default construction, a refused construction with another layout and a
    second default construction follow. *)
Lemma slk_layout_fixed_by_first_witness :
  Soft_Label_Key_Set.format
    (@Soft_Label_Key_Set.constructions eti_codes (gxx 4 8) labels_of_layout
       [Soft_Label_Key_Set.by_default;
        Soft_Label_Key_Set.with_layout Label_Layout.Four_Four;
        Soft_Label_Key_Set.by_default]
       {| Soft_Label_Key_Set.count := 1;
          Soft_Label_Key_Set.format := Label_Layout.PC_Style;
          Soft_Label_Key_Set.num_labels := 12 |}).2
  = Label_Layout.PC_Style
  ∧ Soft_Label_Key_Set.labels
      (@Soft_Label_Key_Set.constructions eti_codes (gxx 4 8) labels_of_layout
         [Soft_Label_Key_Set.by_default;
          Soft_Label_Key_Set.with_layout Label_Layout.Four_Four;
          Soft_Label_Key_Set.by_default]
         {| Soft_Label_Key_Set.count := 1;
            Soft_Label_Key_Set.format := Label_Layout.PC_Style;
            Soft_Label_Key_Set.num_labels := 12 |}).2
    = 12.
Proof.
  destruct (@slk_layout_fixed_by_first eti_codes (gxx 4 8) labels_of_layout
    Label_Layout.PC_Style Soft_Label_Key_Set.initial
    (Soft_Label_Key_Set.init 12)
    {| Soft_Label_Key_Set.count := 1;
       Soft_Label_Key_Set.format := Label_Layout.PC_Style;
       Soft_Label_Key_Set.num_labels := 12 |}
    [Soft_Label_Key_Set.by_default;
     Soft_Label_Key_Set.with_layout Label_Layout.Four_Four;
     Soft_Label_Key_Set.by_default] eq_refl eq_refl)
    as (_ & _ & Hf & Hn & _).
  split; [exact Hf | exact Hn].
Defined.

(** The refused construction leaves no set behind: two sets are built, both
    by the default constructor, both with twelve labels. *)
Example slk_constructions_built :
  (λ rs, (rs.1, length (Soft_Label_Key_Set.slk_array rs.2)))
  <$> (@Soft_Label_Key_Set.constructions eti_codes (gxx 4 8) labels_of_layout
         [Soft_Label_Key_Set.by_default;
          Soft_Label_Key_Set.with_layout Label_Layout.Four_Four;
          Soft_Label_Key_Set.by_default]
         {| Soft_Label_Key_Set.count := 1;
            Soft_Label_Key_Set.format := Label_Layout.PC_Style;
            Soft_Label_Key_Set.num_labels := 12 |}).1
  = [(Soft_Label_Key_Set.by_default, 12%nat);
     (Soft_Label_Key_Set.by_default, 12%nat)].
Proof. reflexivity. Qed.

(** ** Showing and hiding labels *)

Section ShowHide.
Context {S : Type} `{Soft_Label_Key_Set.Activation S}.

Lemma do_activate_label_start i bf (s : S) :
  Soft_Label_Key_Set.do_activate_label i bf (Soft_Label_Key_Set.start s)
  = ([Soft_Label_Key_Set.call_activate_label i bf],
     Soft_Label_Key_Set.activate_label i bf s).
Proof. done. Qed.

Lemma do_activate_labels_start bf (s : S) :
  Soft_Label_Key_Set.do_activate_labels bf (Soft_Label_Key_Set.start s)
  = ([Soft_Label_Key_Set.call_activate_labels bf],
     Soft_Label_Key_Set.activate_labels bf s).
Proof. done. Qed.

(** The calls [show(i)] issues: the deactivation, and the activation once
    the deactivation has returned. *)
Lemma show_label_calls i (s : S) :
  (Soft_Label_Key_Set.show_label i s).1
  = Soft_Label_Key_Set.call_activate_label i false
    :: (if returns (Soft_Label_Key_Set.activate_label i false s)
        then [Soft_Label_Key_Set.call_activate_label i true] else []).
Proof.
  unfold Soft_Label_Key_Set.show_label. rewrite do_activate_label_start.
  by destruct (Soft_Label_Key_Set.activate_label i false s).
Qed.

Lemma show_label_returns i (s s1 : S) :
  Soft_Label_Key_Set.activate_label i false s = Ret s1 →
  Soft_Label_Key_Set.show_label i s
  = ([Soft_Label_Key_Set.call_activate_label i false;
      Soft_Label_Key_Set.call_activate_label i true],
     Soft_Label_Key_Set.activate_label i true s1).
Proof.
  intros Hd. unfold Soft_Label_Key_Set.show_label.
  by rewrite do_activate_label_start, Hd.
Qed.

Lemma show_calls (s : S) :
  (Soft_Label_Key_Set.show s).1
  = Soft_Label_Key_Set.call_activate_labels false
    :: (if returns (Soft_Label_Key_Set.activate_labels false s)
        then [Soft_Label_Key_Set.call_activate_labels true] else []).
Proof.
  unfold Soft_Label_Key_Set.show. rewrite do_activate_labels_start.
  by destruct (Soft_Label_Key_Set.activate_labels false s).
Qed.

Lemma show_returns (s s1 : S) :
  Soft_Label_Key_Set.activate_labels false s = Ret s1 →
  Soft_Label_Key_Set.show s
  = ([Soft_Label_Key_Set.call_activate_labels false;
      Soft_Label_Key_Set.call_activate_labels true],
     Soft_Label_Key_Set.activate_labels true s1).
Proof.
  intros Hd. unfold Soft_Label_Key_Set.show.
  by rewrite do_activate_labels_start, Hd.
Qed.
End ShowHide.

(** C8.  [hide(i)] issues the one call [activate_label(i, FALSE)], and
    [hide()] the one call [activate_labels(FALSE)].  [show(i)] issues
    [activate_label(i, FALSE)] and then, the deactivation having returned,
    [activate_label(i, TRUE)] on the state the deactivation left, and nothing
    else; [show()] does the same with [activate_labels]. *)
Theorem show_hide_calls {S : Type} `{Soft_Label_Key_Set.Activation S} (i : Z) (s : S) :
  Soft_Label_Key_Set.hide_label i s
  = ([Soft_Label_Key_Set.call_activate_label i false],
     Soft_Label_Key_Set.activate_label i false s)
  ∧ Soft_Label_Key_Set.hide s
    = ([Soft_Label_Key_Set.call_activate_labels false],
       Soft_Label_Key_Set.activate_labels false s)
  ∧ (Soft_Label_Key_Set.show_label i s).1
    = Soft_Label_Key_Set.call_activate_label i false
      :: (if returns (Soft_Label_Key_Set.activate_label i false s)
          then [Soft_Label_Key_Set.call_activate_label i true] else [])
  ∧ (∀ s1, Soft_Label_Key_Set.activate_label i false s = Ret s1 →
       Soft_Label_Key_Set.show_label i s
       = ([Soft_Label_Key_Set.call_activate_label i false;
           Soft_Label_Key_Set.call_activate_label i true],
          Soft_Label_Key_Set.activate_label i true s1))
  ∧ (Soft_Label_Key_Set.show s).1
    = Soft_Label_Key_Set.call_activate_labels false
      :: (if returns (Soft_Label_Key_Set.activate_labels false s)
          then [Soft_Label_Key_Set.call_activate_labels true] else [])
  ∧ (∀ s1, Soft_Label_Key_Set.activate_labels false s = Ret s1 →
       Soft_Label_Key_Set.show s
       = ([Soft_Label_Key_Set.call_activate_labels false;
           Soft_Label_Key_Set.call_activate_labels true],
          Soft_Label_Key_Set.activate_labels true s1)).
Proof.
  split; [done|]. split; [done|].
  split; [apply show_label_calls|]. split; [apply show_label_returns|].
  split; [apply show_calls | apply show_returns].
Qed.

(** With the labels 2 and 3 on display, [show(3)] takes label 3 off and
    puts it back; [show()] puts all eight labels on display. *)
Lemma show_hide_calls_witness :
  @Soft_Label_Key_Set.show_label _ displayed_labels 3 [2; 3]
  = ([Soft_Label_Key_Set.call_activate_label 3 false;
      Soft_Label_Key_Set.call_activate_label 3 true], Ret [3; 2])
  ∧ @Soft_Label_Key_Set.show _ displayed_labels [2; 3]
    = ([Soft_Label_Key_Set.call_activate_labels false;
        Soft_Label_Key_Set.call_activate_labels true],
       Ret [1; 2; 3; 4; 5; 6; 7; 8]).
Proof.
  destruct (@show_hide_calls _ displayed_labels 3 [2; 3])
    as (_ & _ & _ & Hshow_i & _ & Hshow).
  split; [exact (Hshow_i [2] eq_refl) | exact (Hshow [] eq_refl)].
Defined.

(** A label number the activation refuses: the deactivation throws and no
    activation follows. *)
Example show_label_refused :
  @Soft_Label_Key_Set.show_label _ displayed_labels 9 [2; 3]
  = ([Soft_Label_Key_Set.call_activate_label 9 false],
     Throw (NCursesException_ "slk_set" (-1))).
Proof. reflexivity. Qed.

(** ** The dispatch loop *)

Section RunLoop.
Context {L : Type} `{Driver L}.

Lemma iterations_cons c keys (l : L) :
  iterations (c :: keys) l = iterations keys (iteration c l).2.
Proof. done. Qed.

(** While no iteration signals the exit action the loop goes on. *)
Lemma run_loop_no_exit keys rest (l : L) :
  no_exit keys l = true →
  run_loop (keys ++ rest) l = run_loop rest (iterations keys l).
Proof.
  revert l. induction keys as [|c keys IH]; intros l Hno; [done|].
  rewrite iterations_cons. simpl in Hno. simpl.
  destruct (iteration c l) as [leave l'] eqn:Hit.
  destruct leave; simpl in *; [done|]. by apply IH.
Qed.

(** On a script without exit action the loop is still waiting. *)
Lemma run_loop_waiting keys (l : L) :
  no_exit keys l = true → run_loop keys l = None.
Proof.
  intros Hno. rewrite <- (app_nil_r keys). by rewrite run_loop_no_exit.
Qed.

(** The loop is left by the first iteration that signals the exit action. *)
Lemma run_loop_exit keys c rest (l : L) :
  no_exit keys l = true →
  (iteration c (iterations keys l)).1 = true →
  run_loop (keys ++ c :: rest) l = Some (iteration c (iterations keys l)).2.
Proof.
  intros Hno Hexit. rewrite run_loop_no_exit by done. simpl.
  destruct (iteration c (iterations keys l)) as [leave l']. simpl in *.
  by rewrite Hexit.
Qed.

(** A loop that has been left was left by an iteration of the script. *)
Lemma run_loop_Some keys (l l' : L) :
  run_loop keys l = Some l' →
  ∃ before c rest,
    keys = before ++ c :: rest
    ∧ no_exit before l = true
    ∧ iteration c (iterations before l) = (true, l').
Proof.
  revert l. induction keys as [|c keys IH]; intros l; simpl; [done|].
  destruct (iteration c l) as [leave l1] eqn:Hit. destruct leave.
  - intros [= <-]. by exists [], c, keys.
  - intros Hrun. destruct (IH l1 Hrun) as (before & c' & rest & -> & Hno & Hc').
    exists (c :: before), c', rest. rewrite iterations_cons. simpl.
    by rewrite Hit.
Qed.
End RunLoop.

(** C9.  The run loop of a menu and of a form, on a scripted input.  While
    no iteration signals the exit action the loop repeats: on the script
    [keys] alone it is still waiting for a keystroke.  The iteration on [c],
    the first to signal the exit action, ends the loop in the state [l'] it
    leaves, whatever input follows, and [operator()] returns the child last
    selected: for a single-valued menu in index sync whose current handle
    in [l'] is the handle of the child [w], the wrapper [w]; for a form in
    index sync whose current handle in [l'] is the handle of the child [wf],
    the wrapper [wf]; and NULL for a multi-valued menu.  In every state [l']
    what is returned is [current_item()], respectively [current_field()], in
    [l']. *)
Theorem dispatch_run_loop {L : Type} `{Driver L} (keys : list Z) (c : Z)
    (rest : list Z) (l : L) (m : NCursesMenu.t) (f : NCursesForm.t) :
  no_exit keys l = true →
  (iteration c (iterations keys l)).1 = true →
  let l' := (iteration c (iterations keys l)).2 in
  NCursesMenu.operator_call true keys l m = None
  ∧ NCursesForm.operator_call keys l f = None
  ∧ (∀ (k : nat) w,
       NCursesMenu.index_sync (observe l') m →
       NCursesMenu.children (NCursesMenu.my_items m) !! k = Some w →
       curses.current_item (observe l') (NCursesMenu.menu m) = NCursesMenuItem.item w →
       NCursesMenu.operator_call true (keys ++ c :: rest) l m
       = Some (Ret (Some w), l'))
  ∧ NCursesMenu.operator_call false (keys ++ c :: rest) l m
    = Some (Ret None, l')
  ∧ (∀ (k : nat) wf,
       NCursesForm.index_sync (observe l') f →
       NCursesForm.children (NCursesForm.my_fields f) !! k = Some wf →
       curses.current_field (observe l') (NCursesForm.form f)
       = NCursesFormField.field wf →
       NCursesForm.operator_call (keys ++ c :: rest) l f = Some (Ret wf, l'))
  ∧ NCursesMenu.operator_call true (keys ++ c :: rest) l m
    = Some (w ← NCursesMenu.current_item (observe l') m; Ret (Some w), l')
  ∧ NCursesForm.operator_call (keys ++ c :: rest) l f
    = Some (NCursesForm.current_field (observe l') f, l').
Proof.
  intros Hno Hexit l'.
  unfold NCursesMenu.operator_call, NCursesForm.operator_call.
  rewrite (run_loop_waiting keys l Hno).
  rewrite (run_loop_exit keys c rest l Hno Hexit). fold l'.
  split; [done|]. split; [done|]. split.
  { intros k w Hsync Hw Hcur.
    by rewrite (NCursesMenu_current_item_sync (observe l') m k w Hsync Hw Hcur). }
  split; [done|]. split; [|done].
  intros k wf Hsync Hwf Hcur.
  by rewrite (NCursesForm_current_field_sync (observe l') f k wf Hsync Hwf Hcur).
Qed.

Lemma three_items_in_sync cur : NCursesMenu.index_sync (three_items_at cur) three_items_menu.
Proof.
  intros i w Hw. destruct i as [|[|[|i]]]; simpl in Hw; try done;
    injection Hw as <-; reflexivity.
Defined.

Lemma three_fields_in_sync cur : NCursesForm.index_sync (three_fields_at cur) three_fields_form.
Proof.
  intros i w Hw. destruct i as [|[|[|i]]]; simpl in Hw; try done;
    injection Hw as <-; reflexivity.
Defined.

(** The menu "Alpha", "Beta", "Gamma" with the selection on "Alpha": the
    keys down, down, enter leave the loop with the wrapper of "Gamma", or
    with NULL when the menu is multi-valued.  The form of three fields with
    the first field current: the keys tab, escape leave the loop with the
    wrapper of the second field. *)
Lemma dispatch_run_loop_witness :
  @NCursesMenu.operator_call _ three_items_driver true [258; 258; 10] 110
     three_items_menu
  = Some (Ret (Some (NCursesMenuItem.mk 30 130)), 130)
  ∧ @NCursesMenu.operator_call _ three_items_driver false [258; 258; 10] 110
      three_items_menu
    = Some (Ret None, 130)
  ∧ @NCursesForm.operator_call _ three_fields_driver [9; 27] 210 three_fields_form
    = Some (Ret (NCursesFormField.mk 20 220 NULL), 220).
Proof.
  destruct (@dispatch_run_loop _ three_items_driver [258; 258] 10 [] 110
    three_items_menu three_fields_form eq_refl eq_refl)
    as (_ & _ & Hone & Hmulti & _).
  destruct (@dispatch_run_loop _ three_fields_driver [9] 27 [] 210
    three_items_menu three_fields_form eq_refl eq_refl)
    as (_ & _ & _ & _ & Hform & _).
  split; [|split].
  - exact (Hone 2%nat (NCursesMenuItem.mk 30 130) (three_items_in_sync 130)
             eq_refl eq_refl).
  - exact Hmulti.
  - exact (Hform 1%nat (NCursesFormField.mk 20 220 NULL) (three_fields_in_sync 220)
             eq_refl eq_refl).
Defined.

(** Without index sync nothing says a wrapper comes back: on a menu whose
    wrapper array is empty the same keys end in a read outside the array. *)
Example dispatch_run_loop_out_of_sync :
  @NCursesMenu.operator_call _ three_items_driver true [258; 258; 10] 110 hooked_menu
  = Some (Undefined, 130).
Proof. reflexivity. Qed.

(** * Further properties of the binding *)

(** ** THROW *)

(** X1.  Whatever exception is handed to [THROW], what propagates — when
    anything does — is an object of the base class: its class name is
    "NCursesWindow", its message and error number are those of the exception
    given, and the panel, menu or form of a derived exception is gone.  It
    propagates only with a toolchain for which [CPP_HAS_TRY_CATCH] is set. *)
Theorem THROW_throws_the_base_class {A} tc e e' :
  @THROW A tc e = Throw e' →
  CPP_HAS_TRY_CATCH tc = true
  ∧ e' = NCursesException_ (message e) (errorno e)
  ∧ classname e' = "NCursesWindow"%string.
Proof.
  unfold THROW, CPP_HAS_TRY_CATCH.
  destruct (THROW_branch tc); try discriminate. by intros [= <-].
Qed.

Lemma THROW_throws_the_base_class_witness :
  classname (NCursesMenuException_err 640 (-1)) = "NCursesMenu"%string
  ∧ @THROW unit (gxx 4 8) (NCursesMenuException_err 640 (-1))
    = Throw (NCursesException_ "menu library error" (-1))
  ∧ classname (NCursesException_ "menu library error" (-1)) = "NCursesWindow"%string.
Proof.
  split; [reflexivity|]. split; [reflexivity|].
  exact (proj2 (proj2 (@THROW_throws_the_base_class unit (gxx 4 8)
    (NCursesMenuException_err 640 (-1))
    (NCursesException_ "menu library error" (-1)) eq_refl))).
Defined.

Lemma THROW_branch_try_catch tc :
  THROW_branch tc = try_catch ↔
  (∃ g, GNUG tc = Some g ∧ EXCEPTIONS tc = true
        ∧ (3 ≤ g ∨ 8 ≤ GNUC_MINOR tc) ∧ g < 7)
  ∨ ((GNUG tc = None ∨ EXCEPTIONS tc = false) ∧ SUNPRO_CC tc = true
     ∧ ∃ c, SUNPRO_CC_COMPAT tc = Some c ∧ 5 ≤ c).
Proof.
  unfold THROW_branch.
  destruct (GNUG tc) as [g|], (EXCEPTIONS tc) eqn:He.
  - destruct (g <=? 2) eqn:H2, (GNUC_MINOR tc <? 8) eqn:H8, (g >=? 7) eqn:H7;
      simpl; split; try done.
    all: try (intros _; left; exists g; repeat split; try done; lia).
    all: intros [(g' & [= <-] & _ & Hv & Hlt) | ([|] & _)]; try done; lia.
  - destruct (SUNPRO_CC tc).
    + destruct (SUNPRO_CC_COMPAT tc) as [c|].
      * destruct (c <? 5) eqn:H5; split; try done.
        -- intros [(g' & _ & ? & _) | (_ & _ & c' & [= <-] & Hc)]; [done | lia].
        -- intros _. right. split; [by right|]. split; [done|].
           exists c. split; [done | lia].
      * split; [done|].
        intros [(g' & _ & ? & _) | (_ & _ & c' & ? & _)]; done.
    + split; [done|]. intros [(g' & _ & ? & _) | (_ & ? & _)]; done.
  - destruct (SUNPRO_CC tc).
    + destruct (SUNPRO_CC_COMPAT tc) as [c|].
      * destruct (c <? 5) eqn:H5; split; try done.
        -- intros [(g' & ? & _) | (_ & _ & c' & [= <-] & Hc)]; [done | lia].
        -- intros _. right. split; [by left|]. split; [done|].
           exists c. split; [done | lia].
      * split; [done|].
        intros [(g' & ? & _) | (_ & _ & c' & ? & _)]; done.
    + split; [done|]. intros [(g' & ? & _) | (_ & ? & _)]; done.
  - destruct (SUNPRO_CC tc).
    + destruct (SUNPRO_CC_COMPAT tc) as [c|].
      * destruct (c <? 5) eqn:H5; split; try done.
        -- intros [(g' & ? & _) | (_ & _ & c' & [= <-] & Hc)]; [done | lia].
        -- intros _. right. split; [by left|]. split; [done|].
           exists c. split; [done | lia].
      * split; [done|].
        intros [(g' & ? & _) | (_ & _ & c' & ? & _)]; done.
    + split; [done|]. intros [(g' & ? & _) | (_ & ? & _)]; done.
Qed.

(** X2.  [THROW] raises a C++ exception exactly with g++ from 2.8 up to 6
    when exceptions are enabled, and with Sun C++ at compatibility level 5
    or higher; with every other toolchain the error ends the run.  Without
    g++ exceptions and without Sun C++ the process exits with status 0. *)
Theorem THROW_toolchains {A} tc e :
  (recoverable (@THROW A tc e) = true ↔
   (∃ g, GNUG tc = Some g ∧ EXCEPTIONS tc = true
         ∧ (3 ≤ g ∨ 8 ≤ GNUC_MINOR tc) ∧ g < 7)
   ∨ ((GNUG tc = None ∨ EXCEPTIONS tc = false) ∧ SUNPRO_CC tc = true
      ∧ ∃ c, SUNPRO_CC_COMPAT tc = Some c ∧ 5 ≤ c))
  ∧ ((GNUG tc = None ∨ EXCEPTIONS tc = false) → SUNPRO_CC tc = false →
     @THROW A tc e = Exit exit_0).
Proof.
  split.
  - rewrite <- THROW_branch_try_catch. unfold THROW.
    by destruct (THROW_branch tc).
  - intros Hg Hs. unfold THROW, THROW_branch. rewrite Hs.
    destruct Hg as [-> | ->]; [done|]. by destruct (GNUG tc).
Qed.

Lemma THROW_toolchains_witness :
  recoverable (@THROW unit (gxx 6 3) (NCursesException_ "slk_clear" (-1))) = true
  ∧ @THROW unit (gxx_no_exceptions 11 2) (NCursesException_ "slk_clear" (-1))
    = Exit exit_0.
Proof.
  destruct (@THROW_toolchains unit (gxx 6 3) (NCursesException_ "slk_clear" (-1)))
    as [Hr _].
  destruct (@THROW_toolchains unit (gxx_no_exceptions 11 2)
    (NCursesException_ "slk_clear" (-1))) as [_ He].
  split.
  - apply Hr. left. exists 6. repeat split; try done; lia.
  - apply He; [by right | done].
Defined.

(** ** Panels *)

(** X3.  [above()] and [below()] of a panel always produce an error: on
    every panel and with every toolchain they hand a panel exception with
    [ERR] to [THROW], and never return the dummy panel. *)
Theorem panel_above_below_always_fail `{EtiCodes} tc (dummy : ptr) (o : NCursesPanel.t) :
  NCursesPanel.above tc dummy o
  = THROW tc (NCursesPanelException (NCursesPanel.this o) "panel library error" ERR)
  ∧ NCursesPanel.below tc dummy o
    = THROW tc (NCursesPanelException (NCursesPanel.this o) "panel library error" ERR)
  ∧ returns (NCursesPanel.above tc dummy o) = false
  ∧ returns (NCursesPanel.below tc dummy o) = false.
Proof.
  assert (NCursesPanel.above tc dummy o
          = THROW tc (NCursesPanelException (NCursesPanel.this o)
                        "panel library error" ERR)) as Ha.
  { unfold NCursesPanel.above, NCursesPanel.OnError.
    rewrite decide_True by done. apply THROW_bind. }
  split; [done|]. split; [done|].
  split; [rewrite Ha | change (NCursesPanel.below tc dummy o)
                         with (NCursesPanel.above tc dummy o); rewrite Ha];
    apply THROW_returns.
Qed.

Section PanelCalls.
Context `{EtiCodes} `{PanelCalls}.

Lemma NCursesPanel_OnError_returns tc o err :
  NCursesPanel.OnError tc o err = Ret tt ↔ err ≠ ERR.
Proof.
  unfold NCursesPanel.OnError. case_decide as He; split; try done.
  intros Ht. by apply THROW_not_Ret in Ht.
Qed.

Lemma NCursesMenu_OnError_returns tc o err :
  NCursesMenu.OnError tc o err = Ret tt ↔ err = E_OK.
Proof.
  unfold NCursesMenu.OnError. case_decide as He; split; try done.
  intros Ht. by apply THROW_not_Ret in Ht.
Qed.

Lemma NCursesPanel_mvwin_returns tc o y x v :
  NCursesPanel.mvwin tc o y x = Ret v ↔ move_panel (NCursesPanel.p o) y x ≠ ERR ∧ v = OK.
Proof.
  unfold NCursesPanel.mvwin, NCursesPanel.OnError.
  case_decide as He; simpl.
  - rewrite THROW_bind. split; [|by intros [??]].
    intros Ht. by apply THROW_not_Ret in Ht.
  - split; [by intros [= <-] | by intros [_ ->]].
Qed.
End PanelCalls.

(** X4.  The operations of a panel report one answer of the panel library
    only, [ERR]: [hide], [show], [top] and [bottom] return exactly when the
    library did not answer [ERR], and [mvwin] then returns [OK], whatever
    the library answered.  A menu is stricter: its [OnError] returns for
    [E_OK] alone. *)
Theorem panel_operations_report_ERR_only `{EtiCodes} `{PanelCalls} tc
    (o : NCursesPanel.t) (m : NCursesMenu.t) (y x : Z) :
  (NCursesPanel.hide tc o = Ret tt ↔ hide_panel (NCursesPanel.p o) ≠ ERR)
  ∧ (NCursesPanel.show tc o = Ret tt ↔ show_panel (NCursesPanel.p o) ≠ ERR)
  ∧ (NCursesPanel.top tc o = Ret tt ↔ top_panel (NCursesPanel.p o) ≠ ERR)
  ∧ (NCursesPanel.bottom tc o = Ret tt ↔ bottom_panel (NCursesPanel.p o) ≠ ERR)
  ∧ (∀ v, NCursesPanel.mvwin tc o y x = Ret v
          ↔ move_panel (NCursesPanel.p o) y x ≠ ERR ∧ v = OK)
  ∧ (∀ err, NCursesPanel.OnError tc o err = Ret tt ↔ err ≠ ERR)
  ∧ (∀ err, NCursesMenu.OnError tc m err = Ret tt ↔ err = E_OK).
Proof.
  split; [apply NCursesPanel_OnError_returns|].
  split; [apply NCursesPanel_OnError_returns|].
  split; [apply NCursesPanel_OnError_returns|].
  split; [apply NCursesPanel_OnError_returns|].
  split; [intros v; apply NCursesPanel_mvwin_returns|].
  split; intros err;
    [apply NCursesPanel_OnError_returns | apply NCursesMenu_OnError_returns].
Qed.

(** The panel at 2048 is not hidden, the panel at 4096 is; the answer -2 is
    no error for a panel and is one for a menu. *)
Lemma panel_operations_report_ERR_only_witness :
  @NCursesPanel.hide eti_codes stubborn_panels (gxx 4 8) (NCursesPanel.mk 640 4096)
  = Ret tt
  ∧ @NCursesPanel.hide eti_codes stubborn_panels (gxx 4 8) (NCursesPanel.mk 640 2048)
    ≠ Ret tt
  ∧ @NCursesPanel.OnError eti_codes (gxx 4 8) (NCursesPanel.mk 640 4096) (-2) = Ret tt
  ∧ @NCursesMenu.OnError eti_codes (gxx 4 8) three_items_menu (-2) ≠ Ret tt.
Proof.
  destruct (@panel_operations_report_ERR_only eti_codes stubborn_panels (gxx 4 8)
    (NCursesPanel.mk 640 4096) three_items_menu 0 0)
    as (Hh & _ & _ & _ & _ & Hp & Hm).
  destruct (@panel_operations_report_ERR_only eti_codes stubborn_panels (gxx 4 8)
    (NCursesPanel.mk 640 2048) three_items_menu 0 0) as (Hh' & _).
  split; [by apply Hh|]. split.
  - intros Hr. by apply Hh' in Hr.
  - split; [by apply Hp|]. intros Hr. by apply Hm in Hr.
Defined.

(** ** User data *)

Lemma set_m_user_back user hook : m_back (set_m_user user hook) = m_back hook.
Proof. done. Qed.

Lemma set_m_user_owner user hook : m_owner (set_m_user user hook) = m_owner hook.
Proof. done. Qed.

Lemma NCursesPanel_user_match lib o user heap hook :
  NCursesPanel.UserPointer lib o ≠ NULL →
  heap !! NCursesPanel.UserPointer lib o = Some hook →
  m_back hook = NCursesPanel.this o → m_owner hook = NCursesPanel.p o →
  NCursesPanel.get_user lib o heap = Ret (m_user hook)
  ∧ NCursesPanel.set_user lib o user heap
    = Ret (<[NCursesPanel.UserPointer lib o := set_m_user user hook]> heap).
Proof.
  intros Hnn Hh Hb Ho.
  destruct (NCursesPanel_user_hook lib o user heap hook Hnn Hh) as [-> ->].
  by rewrite !decide_True.
Qed.

Lemma NCursesPanel_user_mismatch lib o user heap hook :
  NCursesPanel.UserPointer lib o ≠ NULL →
  heap !! NCursesPanel.UserPointer lib o = Some hook →
  m_back hook ≠ NCursesPanel.this o ∨ m_owner hook ≠ NCursesPanel.p o →
  NCursesPanel.get_user lib o heap = Ret NULL
  ∧ NCursesPanel.set_user lib o user heap = Ret heap.
Proof.
  intros Hnn Hh Hne.
  destruct (NCursesPanel_user_hook lib o user heap hook Hnn Hh) as [-> ->].
  rewrite !decide_False; [done| |]; intros [??]; by destruct Hne.
Qed.

Lemma NCursesUserPanel_setUserData_handle lib o user heap :
  NCursesPanel.p o ≠ NULL →
  NCursesUserPanel.setUserData lib o user heap = NCursesPanel.set_user lib o user heap.
Proof. intros Hp. unfold NCursesUserPanel.setUserData. by rewrite decide_False. Qed.

(** X5.  The user data of a panel round-trips through its hook.  On a panel
    with a handle whose hook matches, [setUserData(u)] followed by
    [UserData()] gives [u]; no other hook changes; a second [setUserData]
    replaces the first, leaving the heap a single [setUserData] would leave.
    On a panel whose hook does not match, [setUserData] stores nothing and
    [UserData()] keeps answering null. *)
Theorem panel_user_round_trip lib (o : NCursesPanel.t) (user user' : ptr)
    (heap : gmap Z UserHook) (hook : UserHook) :
  NCursesPanel.p o ≠ NULL →
  NCursesPanel.UserPointer lib o ≠ NULL →
  heap !! NCursesPanel.UserPointer lib o = Some hook →
  (m_back hook = NCursesPanel.this o → m_owner hook = NCursesPanel.p o →
     ∃ heap',
       NCursesUserPanel.setUserData lib o user heap = Ret heap'
       ∧ NCursesUserPanel.UserData lib o heap' = Ret user
       ∧ (∀ a, a ≠ NCursesPanel.UserPointer lib o → heap' !! a = heap !! a)
       ∧ ∃ heap'',
           NCursesUserPanel.setUserData lib o user' heap' = Ret heap''
           ∧ NCursesUserPanel.UserData lib o heap'' = Ret user'
           ∧ NCursesUserPanel.setUserData lib o user' heap = Ret heap'')
  ∧ (m_back hook ≠ NCursesPanel.this o ∨ m_owner hook ≠ NCursesPanel.p o →
       NCursesUserPanel.setUserData lib o user heap = Ret heap
       ∧ NCursesUserPanel.UserData lib o heap = Ret NULL).
Proof.
  intros Hp Hnn Hh. unfold NCursesUserPanel.UserData.
  rewrite ?NCursesUserPanel_setUserData_handle by done.
  split; [|intros Hne; destruct (NCursesPanel_user_mismatch lib o user heap hook
                                   Hnn Hh Hne) as [Hg Hs]; by split].
  intros Hb Ho.
  set (uptr := NCursesPanel.UserPointer lib o) in *.
  destruct (NCursesPanel_user_match lib o user heap hook Hnn Hh Hb Ho) as [_ Hset].
  fold uptr in Hset.
  assert (<[uptr := set_m_user user hook]> heap !! uptr
          = Some (set_m_user user hook)) as Hh1 by apply lookup_insert_eq.
  exists (<[uptr := set_m_user user hook]> heap).
  rewrite ?NCursesUserPanel_setUserData_handle by done.
  split; [exact Hset|]. split.
  { by destruct (NCursesPanel_user_match lib o user _ _ Hnn Hh1 Hb Ho) as [-> _]. }
  split; [intros a Ha; by apply lookup_insert_ne|].
  destruct (NCursesPanel_user_match lib o user' _ _ Hnn Hh1 Hb Ho) as [_ Hset1].
  fold uptr in Hset1. rewrite insert_insert_eq in Hset1.
  change (set_m_user user' (set_m_user user hook)) with (set_m_user user' hook) in Hset1.
  exists (<[uptr := set_m_user user' hook]> heap).
  rewrite ?NCursesUserPanel_setUserData_handle by done.
  split; [exact Hset1|]. split.
  - assert (<[uptr := set_m_user user' hook]> heap !! uptr
            = Some (set_m_user user' hook)) as Hh2 by apply lookup_insert_eq.
    by destruct (NCursesPanel_user_match lib o user _ _ Hnn Hh2 Hb Ho) as [-> _].
  - by destruct (NCursesPanel_user_match lib o user' heap hook Hnn Hh Hb Ho) as [_ ->].
Qed.

(** The panel at 4096 of the wrapper at 640: 9 is stored and read back, then
    replaced by 11. *)
Lemma panel_user_round_trip_witness :
  ∃ heap',
    NCursesUserPanel.setUserData (hooked_library 4096 256) (NCursesPanel.mk 640 4096) 9
      {[ 256 := {| m_user := 7; m_back := 640; m_owner := 4096 |} ]} = Ret heap'
    ∧ NCursesUserPanel.UserData (hooked_library 4096 256) (NCursesPanel.mk 640 4096)
        heap' = Ret 9.
Proof.
  destruct (panel_user_round_trip (hooked_library 4096 256)
    (NCursesPanel.mk 640 4096) 9 11
    {[ 256 := {| m_user := 7; m_back := 640; m_owner := 4096 |} ]}
    {| m_user := 7; m_back := 640; m_owner := 4096 |}) as [Hm _];
    [done | done | done |].
  destruct (Hm eq_refl eq_refl) as (heap' & Hs & Hg & _).
  exists heap'. by split.
Defined.

Lemma deref_Ret heap a hook : deref heap a = Ret hook → heap !! a = Some hook.
Proof. unfold deref. destruct (heap !! a); [by intros [= ->] | done]. Qed.

(** A returning [set_user] of a menu found a matching hook and replaced its
    user pointer. *)
Lemma NCursesMenu_set_user_Ret lib o user heap heap' :
  NCursesMenu.set_user lib o user heap = Ret heap' →
  ∃ hook, curses.menu_userptr lib (NCursesMenu.menu o) ≠ NULL
    ∧ heap !! curses.menu_userptr lib (NCursesMenu.menu o) = Some hook
    ∧ m_back hook = NCursesMenu.this o
    ∧ m_owner hook = NCursesMenu.menu o
    ∧ heap' = <[curses.menu_userptr lib (NCursesMenu.menu o) := set_m_user user hook]> heap.
Proof.
  unfold NCursesMenu.set_user. case_decide as Hn; [done|].
  destruct (deref heap _) as [hook| | | | |] eqn:Hd; simpl; try done.
  apply deref_Ret in Hd. case_decide as Hm; [|done].
  intros [= <-]. exists hook. by destruct Hm.
Qed.

Lemma NCursesMenu_get_user_match lib o heap hook :
  curses.menu_userptr lib (NCursesMenu.menu o) ≠ NULL →
  heap !! curses.menu_userptr lib (NCursesMenu.menu o) = Some hook →
  NCursesMenu.get_user lib o heap
  = if decide (m_back hook = NCursesMenu.this o ∧ m_owner hook = NCursesMenu.menu o)
    then Ret (m_user hook) else Abort.
Proof.
  intros Hn Hh. unfold NCursesMenu.get_user.
  rewrite decide_False by done. by rewrite (deref_Some _ _ _ Hh).
Qed.

Lemma NCursesMenu_get_user_Ret lib o heap u :
  NCursesMenu.get_user lib o heap = Ret u →
  ∃ hook, curses.menu_userptr lib (NCursesMenu.menu o) ≠ NULL
    ∧ heap !! curses.menu_userptr lib (NCursesMenu.menu o) = Some hook
    ∧ m_back hook = NCursesMenu.this o
    ∧ m_owner hook = NCursesMenu.menu o
    ∧ u = m_user hook.
Proof.
  unfold NCursesMenu.get_user. case_decide as Hn; [done|].
  destruct (deref heap _) as [hook| | | | |] eqn:Hd; simpl; try done.
  apply deref_Ret in Hd. case_decide as Hm; [|done].
  intros [= <-]. exists hook. by destruct Hm.
Qed.

Lemma NCursesMenu_set_user_match lib o user heap hook :
  curses.menu_userptr lib (NCursesMenu.menu o) ≠ NULL →
  heap !! curses.menu_userptr lib (NCursesMenu.menu o) = Some hook →
  NCursesMenu.set_user lib o user heap
  = if decide (m_back hook = NCursesMenu.this o ∧ m_owner hook = NCursesMenu.menu o)
    then Ret (<[curses.menu_userptr lib (NCursesMenu.menu o) := set_m_user user hook]> heap)
    else Abort.
Proof.
  intros Hn Hh. unfold NCursesMenu.set_user.
  rewrite decide_False by done. by rewrite (deref_Some _ _ _ Hh).
Qed.

Lemma NCursesForm_set_user_Ret lib o user heap heap' :
  NCursesForm.set_user lib o user heap = Ret heap' →
  ∃ hook, curses.form_userptr lib (NCursesForm.form o) ≠ NULL
    ∧ heap !! curses.form_userptr lib (NCursesForm.form o) = Some hook
    ∧ m_back hook = NCursesForm.this o
    ∧ m_owner hook = NCursesForm.form o
    ∧ heap' = <[curses.form_userptr lib (NCursesForm.form o) := set_m_user user hook]> heap.
Proof.
  unfold NCursesForm.set_user. case_decide as Hn; [done|].
  destruct (deref heap _) as [hook| | | | |] eqn:Hd; simpl; try done.
  apply deref_Ret in Hd. case_decide as Hm; [|done].
  intros [= <-]. exists hook. by destruct Hm.
Qed.

Lemma NCursesForm_get_user_match lib o heap hook :
  curses.form_userptr lib (NCursesForm.form o) ≠ NULL →
  heap !! curses.form_userptr lib (NCursesForm.form o) = Some hook →
  NCursesForm.get_user lib o heap
  = if decide (m_back hook = NCursesForm.this o ∧ m_owner hook = NCursesForm.form o)
    then Ret (m_user hook) else Abort.
Proof.
  intros Hn Hh. unfold NCursesForm.get_user.
  rewrite decide_False by done. by rewrite (deref_Some _ _ _ Hh).
Qed.

Lemma NCursesForm_get_user_Ret lib o heap u :
  NCursesForm.get_user lib o heap = Ret u →
  ∃ hook, curses.form_userptr lib (NCursesForm.form o) ≠ NULL
    ∧ heap !! curses.form_userptr lib (NCursesForm.form o) = Some hook
    ∧ m_back hook = NCursesForm.this o
    ∧ m_owner hook = NCursesForm.form o
    ∧ u = m_user hook.
Proof.
  unfold NCursesForm.get_user. case_decide as Hn; [done|].
  destruct (deref heap _) as [hook| | | | |] eqn:Hd; simpl; try done.
  apply deref_Ret in Hd. case_decide as Hm; [|done].
  intros [= <-]. exists hook. by destruct Hm.
Qed.

Lemma NCursesForm_set_user_match lib o user heap hook :
  curses.form_userptr lib (NCursesForm.form o) ≠ NULL →
  heap !! curses.form_userptr lib (NCursesForm.form o) = Some hook →
  NCursesForm.set_user lib o user heap
  = if decide (m_back hook = NCursesForm.this o ∧ m_owner hook = NCursesForm.form o)
    then Ret (<[curses.form_userptr lib (NCursesForm.form o) := set_m_user user hook]> heap)
    else Abort.
Proof.
  intros Hn Hh. unfold NCursesForm.set_user.
  rewrite decide_False by done. by rewrite (deref_Some _ _ _ Hh).
Qed.

(** A returning [set_user] of a panel left the heap as it was or replaced
    the user pointer of one hook. *)
Lemma NCursesPanel_set_user_Ret lib o user heap heap' :
  NCursesPanel.set_user lib o user heap = Ret heap' →
  heap' = heap
  ∨ ∃ a hook, heap !! a = Some hook ∧ heap' = <[a := set_m_user user hook]> heap.
Proof.
  unfold NCursesPanel.set_user. case_decide as Hn; [intros [= <-]; by left|].
  destruct (deref heap _) as [hook| | | | |] eqn:Hd; simpl; try done.
  apply deref_Ret in Hd. case_decide as Hm; intros [= <-]; [|by left].
  right. by eexists _, hook.
Qed.

(** Replacing the user pointer of a hook changes nothing for [getHook]. *)
Lemma NCursesMenu_getHook_set_m_user lib heap a hook user h :
  heap !! a = Some hook →
  NCursesMenu.getHook lib (<[a := set_m_user user hook]> heap) h
  = NCursesMenu.getHook lib heap h.
Proof.
  intros Hh. unfold NCursesMenu.getHook. case_decide; [done|].
  unfold deref. destruct (decide (a = curses.menu_userptr lib h)) as [<-|Hne].
  - by rewrite lookup_insert_eq, Hh.
  - by rewrite lookup_insert_ne.
Qed.

Lemma NCursesForm_getHook_set_m_user lib heap a hook user h :
  heap !! a = Some hook →
  NCursesForm.getHook lib (<[a := set_m_user user hook]> heap) h
  = NCursesForm.getHook lib heap h.
Proof.
  intros Hh. unfold NCursesForm.getHook. case_decide; [done|].
  unfold deref. destruct (decide (a = curses.form_userptr lib h)) as [<-|Hne].
  - by rewrite lookup_insert_eq, Hh.
  - by rewrite lookup_insert_ne.
Qed.

(** X6.  Storing user data never disturbs the identity hooks.  After a
    [set_user] of a panel, of a menu or of a form has returned, [getHook]
    resolves every MENU* and FORM* handle exactly as before; and after the
    [set_user] of a menu or form, its [get_user] returns what was stored. *)
Theorem set_user_keeps_identity lib (o : NCursesPanel.t) (m : NCursesMenu.t)
    (f : NCursesForm.t) (user : ptr) (heap heap' : gmap Z UserHook) :
  NCursesPanel.set_user lib o user heap = Ret heap'
  ∨ NCursesMenu.set_user lib m user heap = Ret heap'
  ∨ NCursesForm.set_user lib f user heap = Ret heap' →
  (∀ h, NCursesMenu.getHook lib heap' h = NCursesMenu.getHook lib heap h)
  ∧ (∀ h, NCursesForm.getHook lib heap' h = NCursesForm.getHook lib heap h)
  ∧ (NCursesMenu.set_user lib m user heap = Ret heap' →
     NCursesMenu.get_user lib m heap' = Ret user)
  ∧ (NCursesForm.set_user lib f user heap = Ret heap' →
     NCursesForm.get_user lib f heap' = Ret user).
Proof.
  intros Hset.
  assert (heap' = heap
          ∨ ∃ a hook, heap !! a = Some hook
                      ∧ heap' = <[a := set_m_user user hook]> heap) as Hheap.
  { destruct Hset as [Hp | [Hm | Hf]].
    - by eapply NCursesPanel_set_user_Ret.
    - apply NCursesMenu_set_user_Ret in Hm as (hook & _ & Hh & _ & _ & ->).
      right. by eexists _, hook.
    - apply NCursesForm_set_user_Ret in Hf as (hook & _ & Hh & _ & _ & ->).
      right. by eexists _, hook. }
  split; [|split; [|split]].
  - intros h. destruct Hheap as [-> | (a & hook & Hh & ->)]; [done|].
    by apply NCursesMenu_getHook_set_m_user.
  - intros h. destruct Hheap as [-> | (a & hook & Hh & ->)]; [done|].
    by apply NCursesForm_getHook_set_m_user.
  - intros Hm. apply NCursesMenu_set_user_Ret in Hm as (hook & Hn & Hh & Hb & Ho & ->).
    rewrite (NCursesMenu_get_user_match lib m _ (set_m_user user hook) Hn)
      by apply lookup_insert_eq.
    by rewrite decide_True.
  - intros Hf. apply NCursesForm_set_user_Ret in Hf as (hook & Hn & Hh & Hb & Ho & ->).
    rewrite (NCursesForm_get_user_match lib f _ (set_m_user user hook) Hn)
      by apply lookup_insert_eq.
    by rewrite decide_True.
Qed.

(** The menu at 4096 of the wrapper at 640: after 9 has been stored,
    [getHook] still resolves the menu to its wrapper and [get_user] returns
    9. *)
Lemma set_user_keeps_identity_witness :
  NCursesMenu.getHook (hooked_library 4096 256)
    (<[ 256 := {| m_user := 9; m_back := 640; m_owner := 4096 |} ]>
       {[ 256 := {| m_user := 7; m_back := 640; m_owner := 4096 |} ]}) 4096
  = Ret 640
  ∧ NCursesMenu.get_user (hooked_library 4096 256) hooked_menu
      (<[ 256 := {| m_user := 9; m_back := 640; m_owner := 4096 |} ]>
         {[ 256 := {| m_user := 7; m_back := 640; m_owner := 4096 |} ]})
    = Ret 9.
Proof.
  destruct (set_user_keeps_identity (hooked_library 4096 256)
    (NCursesPanel.mk 0 0) hooked_menu (NCursesForm.internal (NCursesPanel.mk 0 0)) 9
    {[ 256 := {| m_user := 7; m_back := 640; m_owner := 4096 |} ]}
    (<[ 256 := {| m_user := 9; m_back := 640; m_owner := 4096 |} ]>
       {[ 256 := {| m_user := 7; m_back := 640; m_owner := 4096 |} ]}))
    as (Hhook & _ & Hget & _); [right; left; reflexivity|].
  split; [by rewrite Hhook | by apply Hget].
Defined.

(** X7.  The protected constructors of NCursesUserMenu and NCursesUserForm
    never store the user data they are given: the menu or form they build
    has no handle yet, so the heap is left as it was, as it is by a later
    [setUserData]; and where the library keeps no user data for the null
    handle, [UserData()] on such an object fails its assertion. *)
Theorem user_constructor_without_handle lib (panel : NCursesPanel.t) (d : ptr)
    (heap : gmap Z UserHook) :
  NCursesUserMenu.internal lib panel d heap = Ret (NCursesMenu.internal panel, heap)
  ∧ NCursesUserForm.internal lib panel d heap = Ret (NCursesForm.internal panel, heap)
  ∧ NCursesUserMenu.setUserData lib (NCursesMenu.internal panel) d heap = Ret heap
  ∧ NCursesUserForm.setUserData lib (NCursesForm.internal panel) d heap = Ret heap
  ∧ (curses.menu_userptr lib NULL = NULL →
     NCursesUserMenu.UserData lib (NCursesMenu.internal panel) heap = Abort)
  ∧ (curses.form_userptr lib NULL = NULL →
     NCursesUserForm.UserData lib (NCursesForm.internal panel) heap = Abort).
Proof.
  split; [done|]. split; [done|]. split; [done|]. split; [done|]. split.
  - intros Hn. unfold NCursesUserMenu.UserData, NCursesMenu.get_user. simpl.
    by rewrite Hn.
  - intros Hn. unfold NCursesUserForm.UserData, NCursesForm.get_user. simpl.
    by rewrite Hn.
Qed.

Lemma user_constructor_without_handle_witness :
  NCursesUserMenu.UserData quiet_library
    (NCursesMenu.internal (NCursesPanel.mk 640 2048))
    {[ 256 := {| m_user := 7; m_back := 640; m_owner := 4096 |} ]} = Abort.
Proof.
  destruct (user_constructor_without_handle quiet_library (NCursesPanel.mk 640 2048)
    7 {[ 256 := {| m_user := 7; m_back := 640; m_owner := 4096 |} ]})
    as (_ & _ & _ & _ & Hu & _).
  exact (Hu eq_refl).
Defined.

(** X14.  A copy does not own the hook of the original.  For a menu or form
    whose [get_user] returns, [get_user] and [set_user] of a copy at another
    address fail their assertion, and [getHook] on the copy's handle still
    answers the original.  For a panel whose [get_user] returns user data
    (a pointer that is not null), [get_user] of a copy at another address
    returns null and its [set_user] stores nothing. *)
Theorem copies_do_not_own_the_hook lib (addr user : ptr) (heap : gmap Z UserHook) :
  (∀ m u, NCursesMenu.get_user lib m heap = Ret u → addr ≠ NCursesMenu.this m →
     NCursesMenu.get_user lib (NCursesMenu.copy addr m) heap = Abort
     ∧ NCursesMenu.set_user lib (NCursesMenu.copy addr m) user heap = Abort
     ∧ NCursesMenu.getHook lib heap (NCursesMenu.menu (NCursesMenu.copy addr m))
       = Ret (NCursesMenu.this m))
  ∧ (∀ f u, NCursesForm.get_user lib f heap = Ret u → addr ≠ NCursesForm.this f →
       NCursesForm.get_user lib (NCursesForm.copy addr f) heap = Abort
       ∧ NCursesForm.set_user lib (NCursesForm.copy addr f) user heap = Abort
       ∧ NCursesForm.getHook lib heap (NCursesForm.form (NCursesForm.copy addr f))
         = Ret (NCursesForm.this f))
  ∧ (∀ o u, NCursesPanel.get_user lib o heap = Ret u → u ≠ NULL →
       addr ≠ NCursesPanel.this o →
       NCursesPanel.get_user lib (NCursesPanel.copy addr o) heap = Ret NULL
       ∧ NCursesPanel.set_user lib (NCursesPanel.copy addr o) user heap = Ret heap).
Proof.
  split; [|split].
  - intros m u Hg Ha.
    apply NCursesMenu_get_user_Ret in Hg as (hook & Hn & Hh & Hb & Ho & _).
    rewrite (NCursesMenu_get_user_match lib (NCursesMenu.copy addr m) heap hook Hn Hh).
    rewrite (NCursesMenu_set_user_match lib (NCursesMenu.copy addr m) user heap hook Hn Hh).
    rewrite !decide_False
      by (intros [Hb' _]; apply Ha; change (m_back hook = addr) in Hb'; congruence).
    split; [done|]. split; [done|]. simpl.
    rewrite (NCursesMenu_getHook_hook lib heap _ hook Hn Hh).
    by rewrite decide_True, Hb.
  - intros f u Hg Ha.
    apply NCursesForm_get_user_Ret in Hg as (hook & Hn & Hh & Hb & Ho & _).
    rewrite (NCursesForm_get_user_match lib (NCursesForm.copy addr f) heap hook Hn Hh).
    rewrite (NCursesForm_set_user_match lib (NCursesForm.copy addr f) user heap hook Hn Hh).
    rewrite !decide_False
      by (intros [Hb' _]; apply Ha; change (m_back hook = addr) in Hb'; congruence).
    split; [done|]. split; [done|]. simpl.
    rewrite (NCursesForm_getHook_hook lib heap _ hook Hn Hh).
    by rewrite decide_True, Hb.
  - intros o u Hg Hu Ha.
    assert (NCursesPanel.UserPointer lib o ≠ NULL) as Hn.
    { intros Hn. destruct (NCursesPanel_user_null lib o user heap Hn) as [Hg' _].
      rewrite Hg' in Hg. by injection Hg as <-. }
    destruct (heap !! NCursesPanel.UserPointer lib o) as [hook|] eqn:Hh.
    + destruct (decide (m_back hook = NCursesPanel.this o
                        ∧ m_owner hook = NCursesPanel.p o)) as [[Hb Ho]|Hne].
      * apply (NCursesPanel_user_mismatch lib (NCursesPanel.copy addr o) user heap hook);
          [done | done |].
        left. simpl. by rewrite Hb.
      * destruct (NCursesPanel_user_hook lib o user heap hook Hn Hh) as [Hg' _].
        rewrite Hg', decide_False in Hg by done. by injection Hg as <-.
    + unfold NCursesPanel.get_user in Hg. rewrite decide_False in Hg by done.
      unfold deref in Hg. by rewrite Hh in Hg.
Qed.

(** The menu at 4096 hooked to the wrapper at 640, copied to the address
    1280: the copy cannot reach the user data, and the handle still resolves
    to the original. *)
Lemma copies_do_not_own_the_hook_witness :
  NCursesMenu.get_user (hooked_library 4096 256) (NCursesMenu.copy 1280 hooked_menu)
    {[ 256 := {| m_user := 7; m_back := 640; m_owner := 4096 |} ]} = Abort
  ∧ NCursesMenu.getHook (hooked_library 4096 256)
      {[ 256 := {| m_user := 7; m_back := 640; m_owner := 4096 |} ]}
      (NCursesMenu.menu (NCursesMenu.copy 1280 hooked_menu)) = Ret 640.
Proof.
  destruct (copies_do_not_own_the_hook (hooked_library 4096 256) 1280 9
    {[ 256 := {| m_user := 7; m_back := 640; m_owner := 4096 |} ]}) as (Hm & _).
  destruct (Hm hooked_menu 7 eq_refl) as (Hg & _ & Hh); [done|].
  by split.
Defined.

(** ** Children *)

Lemma array_read_outside {A} (a : list A) (i : Z) :
  i < 0 ∨ Z.of_nat (length a) ≤ i → array_read a i = Undefined.
Proof.
  intros Hi. unfold array_read. destruct (i <? 0) eqn:Hlt; [done|].
  rewrite lookup_ge_None_2; [done | lia].
Qed.

(** X8.  [current_item()] and [current_field()] do not check the index the
    library reports for the current child: when it is negative (the library
    has no current child) or beyond the wrapper array, the read is outside
    the array — undefined behaviour, not an error raised.  When the index is
    within the count the library reports, they agree with [operator[]] at
    that index. *)
Theorem current_child_is_unchecked `{EtiCodes} tc lib
    (m : NCursesMenu.t) (f : NCursesForm.t) :
  (curses.item_index lib (curses.current_item lib (NCursesMenu.menu m)) < 0
   ∨ Z.of_nat (length (NCursesMenu.my_items m))
     ≤ curses.item_index lib (curses.current_item lib (NCursesMenu.menu m)) →
   NCursesMenu.current_item lib m = Undefined)
  ∧ (0 ≤ curses.item_index lib (curses.current_item lib (NCursesMenu.menu m))
         < curses.item_count lib (NCursesMenu.menu m) →
     NCursesMenu.operator_subscript tc lib m
       (curses.item_index lib (curses.current_item lib (NCursesMenu.menu m)))
     = NCursesMenu.current_item lib m)
  ∧ (curses.field_index lib (curses.current_field lib (NCursesForm.form f)) < 0
     ∨ Z.of_nat (length (NCursesForm.my_fields f))
       ≤ curses.field_index lib (curses.current_field lib (NCursesForm.form f)) →
     NCursesForm.current_field lib f = Undefined)
  ∧ (0 ≤ curses.field_index lib (curses.current_field lib (NCursesForm.form f))
         < curses.field_count lib (NCursesForm.form f) →
     NCursesForm.operator_subscript tc lib f
       (curses.field_index lib (curses.current_field lib (NCursesForm.form f)))
     = NCursesForm.current_field lib f).
Proof.
  split; [|split; [|split]].
  - apply array_read_outside.
  - intros Hi. unfold NCursesMenu.operator_subscript, NCursesMenu.current_item.
    set (i := curses.item_index lib _) in *.
    replace ((i <? 0) || (i >=? curses.item_count lib (NCursesMenu.menu m)))
      with false by (symmetry; apply orb_false_iff; lia).
    done.
  - apply array_read_outside.
  - intros Hi. unfold NCursesForm.operator_subscript, NCursesForm.current_field.
    set (i := curses.field_index lib _) in *.
    replace ((i <? 0) || (i >=? curses.field_count lib (NCursesForm.form f)))
      with false by (symmetry; apply orb_false_iff; lia).
    done.
Qed.

(** A menu without items: the library reports -1 for the index of its
    current item, and [current_item()] reads before the array. *)
Lemma current_child_is_unchecked_witness :
  NCursesMenu.current_item quiet_library hooked_menu = Undefined.
Proof.
  destruct (@current_child_is_unchecked eti_codes (gxx 4 8) quiet_library
    hooked_menu (NCursesForm.internal (NCursesPanel.mk 0 0))) as (Hu & _).
  apply Hu. left. done.
Defined.

(** X15.  [setItems] and [setFields] surface the sentinel of the library:
    when the library answers the raw handle array with a sentinel other than
    [E_OK], the call does not return and the exception handed to [THROW]
    carries that very sentinel (and, for a menu, the menu). *)
Theorem setItems_surfaces_the_sentinel `{Connect} tc lib
    (m : NCursesMenu.t) (f : NCursesForm.t) Items Fields raw err lib' :
  err ≠ E_OK →
  (NCursesMenu.handles Items = Ret raw →
   set_menu_items lib (NCursesMenu.menu m) raw = (err, lib') →
   NCursesMenu.setItems tc lib m Items
   = THROW tc (NCursesMenuException (NCursesMenu.this m) "menu library error" err))
  ∧ (NCursesForm.handles Fields = Ret raw →
     set_form_fields lib (NCursesForm.form f) raw = (err, lib') →
     NCursesForm.setFields tc lib f Fields
     = THROW tc (NCursesFormException NULL "form library error" err)).
Proof.
  intros Herr. split.
  - intros Hraw Hset. unfold NCursesMenu.setItems, NCursesMenu.mapItems.
    rewrite Hraw. simpl. rewrite Hset. unfold NCursesMenu.OnError.
    rewrite decide_False by done. apply THROW_bind.
  - intros Hraw Hset. unfold NCursesForm.setFields, NCursesForm.mapFields.
    rewrite Hraw. simpl. rewrite Hset. unfold NCursesForm.OnError.
    rewrite decide_False by done. apply THROW_bind.
Qed.

(** An array that names the item at 110 twice is refused by the library
    that connects by position, with the sentinel -2. *)
Lemma setItems_surfaces_the_sentinel_witness :
  @NCursesMenu.setItems eti_codes positional_connect (gxx 4 8) quiet_library
     three_items_menu
     [NCursesMenuItem.mk 10 110; NCursesMenuItem.mk 10 110; NCursesMenuItem.mk 40 NULL]
  = Throw (NCursesException_ "menu library error" (-2)).
Proof.
  destruct (@setItems_surfaces_the_sentinel eti_codes positional_connect (gxx 4 8)
    quiet_library three_items_menu (NCursesForm.internal (NCursesPanel.mk 0 0))
    [NCursesMenuItem.mk 10 110; NCursesMenuItem.mk 10 110; NCursesMenuItem.mk 40 NULL]
    [] [110; 110] (-2) quiet_library) as [Hm _]; [done|].
  rewrite Hm; reflexivity.
Defined.

(** ** Items and fields *)

(** X10.  The constructor of a menu item.  Without a name it builds the
    delimiting item, whatever the toolchain, and does not ask the library.
    With a name it returns exactly when the library gave a handle, and the
    item then carries that handle: an item that was constructed with a name
    never delimits an item array.  A copy of any item is a delimiting
    item. *)
Theorem menu_item_constructor `{EtiCodes} tc (new_item : string → cstr → ptr)
    (addr : ptr) (name : string) (p_descript : cstr) (w rhs : NCursesMenuItem.t) :
  E_SYSTEM_ERROR ≠ E_OK →
  NCursesMenuItem.construct tc new_item addr None p_descript
  = Ret (NCursesMenuItem.mk addr NULL)
  ∧ (NCursesMenuItem.construct tc new_item addr (Some name) p_descript = Ret w
     ↔ new_item name p_descript ≠ NULL
       ∧ w = NCursesMenuItem.mk addr (new_item name p_descript))
  ∧ (new_item name p_descript = NULL →
     NCursesMenuItem.construct tc new_item addr (Some name) p_descript
     = THROW tc (NCursesMenuException NULL "menu library error" E_SYSTEM_ERROR))
  ∧ NCursesMenuItem.item (NCursesMenuItem.copy addr rhs) = NULL.
Proof.
  intros Hne. split; [done|]. unfold NCursesMenuItem.construct.
  split; [|split; [|done]].
  - case_bool_decide as Hb; simpl.
    + unfold NCursesMenuItem.OnError. rewrite decide_False by done.
      rewrite THROW_bind. destruct Hb as [_ Hb]. split.
      * intros Ht. by apply THROW_not_Ret in Ht.
      * by intros [? _].
    + assert (new_item name p_descript ≠ NULL) as Hi
        by (intros Hi; apply Hb; by split).
      split; [by intros [= <-] | by intros [_ ->]].
  - intros Hi. rewrite bool_decide_true by done.
    unfold NCursesMenuItem.OnError. rewrite decide_False by done. apply THROW_bind.
Qed.

Lemma menu_item_constructor_witness :
  @NCursesMenuItem.construct eti_codes (gxx 4 8) (λ _ _, 110) 10 (Some "Alpha"%string)
     None = Ret (NCursesMenuItem.mk 10 110)
  ∧ @NCursesMenuItem.construct eti_codes (gxx 4 8) (λ _ _, NULL) 10 (Some "Alpha"%string)
      None = Throw (NCursesException_ "menu library error" (-1)).
Proof.
  destruct (@menu_item_constructor eti_codes (gxx 4 8) (λ _ _, 110) 10 "Alpha" None
    (NCursesMenuItem.mk 10 110) (NCursesMenuItem.mk 10 110)) as (_ & Hr & _);
    [done|].
  destruct (@menu_item_constructor eti_codes (gxx 4 8) (λ _ _, NULL) 10 "Alpha" None
    (NCursesMenuItem.mk 10 110) (NCursesMenuItem.mk 10 110)) as (_ & _ & Ht & _);
    [done|].
  split; [by apply Hr | by rewrite Ht].
Defined.

Section FormFields.
Context `{EtiCodes}.

Lemma NCursesFormField_OnError_error {A} tc err (k : unit → outcome A) :
  err ≠ E_OK →
  (NCursesFormField.OnError tc err ≫= k)
  = THROW tc (NCursesFormException NULL "form library error" err).
Proof.
  intros He. unfold NCursesFormField.OnError. rewrite decide_False by done.
  apply THROW_bind.
Qed.

Lemma NCursesFormField_dup_returns tc f dup_field errno o r :
  E_SYSTEM_ERROR ≠ E_OK → errno ≠ E_OK →
  NCursesFormField.dup tc f dup_field errno o = Ret r
  ↔ f ≠ NULL ∧ dup_field ≠ NULL
    ∧ r = (f, Some (NCursesFormField.mk f dup_field (NCursesFormField.ftype o))).
Proof.
  intros Hs He. unfold NCursesFormField.dup. case_decide as Hf.
  - rewrite NCursesFormField_OnError_error by done. split.
    + intros Ht. by apply THROW_not_Ret in Ht.
    + by intros [? _].
  - case_decide as Hd.
    + rewrite NCursesFormField_OnError_error by done. split.
      * intros Ht. by apply THROW_not_Ret in Ht.
      * by intros (_ & ? & _).
    + simpl. split; [by intros [= <-] | by intros (_ & _ & ->)].
Qed.
End FormFields.

(** X11.  The constructor, [dup] and [link] of a form field, when the form
    library leaves an error number other than [E_OK] on failure.  The
    constructor returns exactly when the library gave a handle, and the field
    carries it.  [dup] and [link] return exactly when the allocation and the
    library both succeeded; the new field then carries the handle the
    library gave and the field type of the field it was made from.  When the
    library fails and leaves the error number [E_OK], the constructor
    returns all the same, with a delimiting field. *)
Theorem form_field_constructors `{EtiCodes} tc (new_field errno addr f fresh : Z)
    (o w : NCursesFormField.t) (r : ptr * option NCursesFormField.t) :
  E_SYSTEM_ERROR ≠ E_OK → errno ≠ E_OK →
  (NCursesFormField.construct tc new_field errno addr = Ret w
   ↔ new_field ≠ NULL ∧ w = NCursesFormField.mk addr new_field NULL)
  ∧ (NCursesFormField.dup tc f fresh errno o = Ret r
     ↔ f ≠ NULL ∧ fresh ≠ NULL
       ∧ r = (f, Some (NCursesFormField.mk f fresh (NCursesFormField.ftype o))))
  ∧ (NCursesFormField.link tc f fresh errno o = Ret r
     ↔ f ≠ NULL ∧ fresh ≠ NULL
       ∧ r = (f, Some (NCursesFormField.mk f fresh (NCursesFormField.ftype o))))
  ∧ NCursesFormField.construct tc NULL E_OK addr
    = Ret (NCursesFormField.mk addr NULL NULL).
Proof.
  intros Hs He. split; [|split; [|split]].
  - unfold NCursesFormField.construct. case_decide as Hn.
    + rewrite NCursesFormField_OnError_error by done. split.
      * intros Ht. by apply THROW_not_Ret in Ht.
      * by intros [? _].
    + simpl. split; [by intros [= <-] | by intros [_ ->]].
  - by apply NCursesFormField_dup_returns.
  - by apply (NCursesFormField_dup_returns tc f fresh errno o r).
  - unfold NCursesFormField.construct, NCursesFormField.OnError.
    by rewrite !decide_True.
Qed.

Lemma form_field_constructors_witness :
  @NCursesFormField.dup eti_codes (gxx 4 8) 1280 220 (-1)
     (NCursesFormField.mk 640 210 77)
  = Ret (1280, Some (NCursesFormField.mk 1280 220 77)).
Proof.
  destruct (@form_field_constructors eti_codes (gxx 4 8) 210 (-1) 640 1280 220
    (NCursesFormField.mk 640 210 77) (NCursesFormField.mk 640 210 NULL)
    (1280, Some (NCursesFormField.mk 1280 220 77))) as (_ & Hd & _); [done | done |].
  by apply Hd.
Defined.

(** ** Windows and pads *)

Lemma as_int_id (z : Z) : -2 ^ 31 ≤ z < 2 ^ 31 → as_int z = z.
Proof. intros Hz. unfold as_int. rewrite Z.mod_small; lia. Qed.

Lemma as_int_pred_succ (z : Z) : -2 ^ 31 ≤ z < 2 ^ 31 → as_int (as_int (z - 1) + 1) = z.
Proof.
  intros Hz. unfold as_int.
  replace ((z - 1 + 2 ^ 31) `mod` 2 ^ 32 - 2 ^ 31 + 1 + 2 ^ 31)
    with ((z - 1 + 2 ^ 31) `mod` 2 ^ 32 + 1) by lia.
  rewrite Zplus_mod_idemp_l.
  replace (z - 1 + 2 ^ 31 + 1) with (z + 2 ^ 31) by lia.
  rewrite Z.mod_small; lia.
Qed.

(** X12.  [height()] and [width()] of a window are the sizes <curses.h>
    reports for it: the 1 that [maxy()] and [maxx()] take off is put back,
    for every [int] the library answers other than [ERR].  For [ERR], they
    are [ERR + 1]. *)
Theorem window_height_width `{EtiCodes} `{WindowCalls} (o : NCursesWindow.t) :
  -2 ^ 31 ≤ getmaxy (NCursesWindow.w o) < 2 ^ 31 →
  -2 ^ 31 ≤ getmaxx (NCursesWindow.w o) < 2 ^ 31 →
  NCursesWindow.height o
  = (if decide (getmaxy (NCursesWindow.w o) = ERR) then as_int (ERR + 1)
     else getmaxy (NCursesWindow.w o))
  ∧ NCursesWindow.width o
    = (if decide (getmaxx (NCursesWindow.w o) = ERR) then as_int (ERR + 1)
       else getmaxx (NCursesWindow.w o)).
Proof.
  intros Hy Hx. unfold NCursesWindow.height, NCursesWindow.width,
    NCursesWindow.maxy, NCursesWindow.maxx.
  split; case_decide; try done; by apply as_int_pred_succ.
Qed.

Lemma window_height_width_witness :
  @NCursesWindow.height eti_codes one_window (NCursesWindow.mk 4096) = 24
  ∧ @NCursesWindow.width eti_codes one_window (NCursesWindow.mk 4096) = 80
  ∧ @NCursesWindow.height eti_codes one_window (NCursesWindow.mk 0) = 0.
Proof.
  destruct (@window_height_width eti_codes one_window (NCursesWindow.mk 4096))
    as [Hh Hw]; [simpl; lia | simpl; lia |].
  destruct (@window_height_width eti_codes one_window (NCursesWindow.mk 0))
    as [Hh0 _]; [simpl; lia | simpl; lia |].
  split; [exact Hh|]. split; [exact Hw | exact Hh0].
Defined.

(** X13.  The request codes of a pad are the six codes from [PAD_LOW] to
    [PAD_HIGH]: every request lies in that range, every code of the range is
    a request, no two requests share a code, and every code is above
    [KEY_MAX], so that no pad request is a key code. *)
Theorem pad_request_codes (KEY_MAX : Z) :
  (∀ r, Pad_Request.to_int KEY_MAX Pad_Request.PAD_LOW
        ≤ Pad_Request.to_int KEY_MAX r
        ≤ Pad_Request.to_int KEY_MAX Pad_Request.PAD_HIGH
        ∧ KEY_MAX < Pad_Request.to_int KEY_MAX r)
  ∧ (∀ r r', Pad_Request.to_int KEY_MAX r = Pad_Request.to_int KEY_MAX r' → r = r')
  ∧ (∀ z, Pad_Request.to_int KEY_MAX Pad_Request.PAD_LOW ≤ z
          ≤ Pad_Request.to_int KEY_MAX Pad_Request.PAD_HIGH →
          ∃ r, Pad_Request.to_int KEY_MAX r = z).
Proof.
  split; [|split].
  - intros r. destruct r; simpl; lia.
  - intros r r'. destruct r, r'; simpl; intros Hr; first [done | lia].
  - simpl. intros z Hz.
    destruct (decide (z = KEY_MAX + 1)) as [->|]; [by exists Pad_Request.REQ_PAD_REFRESH|].
    destruct (decide (z = KEY_MAX + 2)) as [->|]; [by exists Pad_Request.REQ_PAD_UP|].
    destruct (decide (z = KEY_MAX + 3)) as [->|]; [by exists Pad_Request.REQ_PAD_DOWN|].
    destruct (decide (z = KEY_MAX + 4)) as [->|]; [by exists Pad_Request.REQ_PAD_LEFT|].
    destruct (decide (z = KEY_MAX + 5)) as [->|]; [by exists Pad_Request.REQ_PAD_RIGHT|].
    exists Pad_Request.REQ_PAD_EXIT. simpl. lia.
Qed.
